(** * The Ollama provider handler (src/api/providers/ollama.ts)

    A shallow embedding of [OllamaHandler]: the lazily created client,
    [getModel], and the [createMessage] generator with its timeout
    race, its chunk translation loop and its two [catch] blocks,
    followed by the properties of the handler that the specification
    states.

    The JavaScript primitives the handler relies on are modelled first:
    numbers are IEEE binary64 values ([spec_float] at precision 53),
    with [Number(...)] on strings, [/], number-to-string conversion and
    truthiness; strings are sequences of code units below 256. *)

From Stdlib Require Import ZArith QArith Qabs Qround List String Ascii Bool Lia.
From Stdlib Require Import SpecFloat DecimalString.
Import ListNotations.

Local Open Scope string_scope.
Local Open Scope Z_scope.

(** ** JavaScript primitives *)

Module Js.

(** *** Numbers *)

Definition number := spec_float.

Definition prec : Z := 53.
Definition emax : Z := 1024.

Definition NaN : number := S754_nan.

(** The Number value of an integer literal. *)
Definition of_Z (z : Z) : number := binary_normalize prec emax z 0 false.

(** [ToBoolean] on a Number: [+0], [-0] and [NaN] are falsy. *)
Definition truthy (x : number) : bool :=
  match x with
  | S754_zero _ | S754_nan => false
  | _ => true
  end.

(** [x / y]. *)
Definition div (x y : number) : number := SFdiv prec emax x y.

(** Structural equality of two Number values (it tells [+0] from [-0]). *)
Definition same_value (x y : number) : bool :=
  match x, y with
  | S754_zero a, S754_zero b => Bool.eqb a b
  | S754_infinity a, S754_infinity b => Bool.eqb a b
  | S754_nan, S754_nan => true
  | S754_finite a m e, S754_finite b m' e' =>
      Bool.eqb a b && Pos.eqb m m' && Z.eqb e e'
  | _, _ => false
  end.

(** The Number value of [m * 10^e] for a non-negative integer [m]: the
    nearest binary64 value, ties to even. *)
Definition of_decimal (neg : bool) (m e : Z) : number :=
  match m with
  | Zpos p =>
      match e with
      | Zneg _ =>
          SFdiv prec emax (S754_finite neg p 0)
                (S754_finite false (Z.to_pos (10 ^ (- e))) 0)
      | _ => binary_round prec emax neg (Z.to_pos (m * 10 ^ e)) 0
      end
  | _ => S754_zero neg
  end.

(** *** Strings *)

(** [ToBoolean] on a String: only the empty string is falsy. *)
Definition nonempty (s : string) : bool :=
  match s with
  | EmptyString => false
  | String _ _ => true
  end.

(** [String.prototype.includes]. *)
Fixpoint includes (s sub : string) : bool :=
  String.prefix sub s ||
  match s with
  | EmptyString => false
  | String _ s' => includes s' sub
  end.

(** *** [Number(string)]: StringToNumber *)

(** WhiteSpace and LineTerminator code units below 256. *)
Definition is_white_space (c : ascii) : bool :=
  match N_of_ascii c with
  | 9 | 10 | 11 | 12 | 13 | 32 | 160 => true
  | _ => false
  end%N.

Fixpoint trim_start (l : list ascii) : list ascii :=
  match l with
  | c :: l' => if is_white_space c then trim_start l' else l
  | [] => []
  end.

Definition trim (l : list ascii) : list ascii :=
  rev (trim_start (rev (trim_start l))).

(** The value of the digit [c] in the given radix, if it is one. *)
Definition digit_value (radix : Z) (c : ascii) : option Z :=
  let n := Z.of_N (N_of_ascii c) in
  let v :=
    if (48 <=? n) && (n <=? 57) then n - 48
    else if (97 <=? n) && (n <=? 102) then n - 87
    else if (65 <=? n) && (n <=? 70) then n - 55
    else radix in
  if v <? radix then Some v else None.

(** Reads the longest run of digits: the accumulated value, how many
    digits were read, and what follows them. *)
Fixpoint read_digits (radix : Z) (l : list ascii) (acc : Z) (n : nat)
  : Z * nat * list ascii :=
  match l with
  | c :: l' =>
      match digit_value radix c with
      | Some d => read_digits radix l' (acc * radix + d) (S n)
      | None => (acc, n, l)
      end
  | [] => (acc, n, l)
  end.

Definition is_char (c : ascii) (lower upper : string) : bool :=
  String.eqb (String c EmptyString) lower || String.eqb (String c EmptyString) upper.

(** ExponentPart, optional: [e] or [E], an optional sign, digits up to
    the end of the literal. *)
Definition read_exponent (l : list ascii) : option Z :=
  match l with
  | [] => Some 0
  | c :: l' =>
      if is_char c "e" "E" then
        let '(neg, ds) :=
          match l' with
          | s :: l'' =>
              if is_char s "-" "-" then (true, l'')
              else if is_char s "+" "+" then (false, l'')
              else (false, l')
          | [] => (false, l')
          end in
        match read_digits 10 ds 0 0 with
        | (v, S _, []) => Some (if neg then - v else v)
        | _ => None
        end
      else None
  end.

(** StrUnsignedDecimalLiteral. *)
Definition read_unsigned_decimal (neg : bool) (l : list ascii) : number :=
  if String.eqb (string_of_list_ascii l) "Infinity" then S754_infinity neg
  else
    let '(ip, ni, r1) := read_digits 10 l 0 0 in
    let '(m, nf, r2) :=
      match r1 with
      | c :: r1' => if is_char c "." "." then read_digits 10 r1' ip 0
                    else (ip, 0%nat, r1)
      | [] => (ip, 0%nat, r1)
      end in
    match (ni + nf)%nat with
    | O => NaN
    | S _ =>
        match read_exponent r2 with
        | Some e => of_decimal neg m (e - Z.of_nat nf)
        | None => NaN
        end
    end.

(** NonDecimalIntegerLiteral: [0x], [0o] and [0b] literals, unsigned. *)
Definition read_non_decimal (l : list ascii) : option number :=
  match l with
  | z :: p :: ds =>
      if is_char z "0" "0" then
        let radix :=
          if is_char p "x" "X" then Some 16
          else if is_char p "o" "O" then Some 8
          else if is_char p "b" "B" then Some 2
          else None in
        match radix with
        | Some r =>
            match read_digits r ds 0 0 with
            | (v, S _, []) => Some (of_Z v)
            | _ => Some NaN
            end
        | None => None
        end
      else None
  | _ => None
  end.

(** StringToNumber: the Number value of a string, [NaN] when the
    trimmed string is not a StrNumericLiteral, [+0] when it is empty. *)
Definition StringToNumber (s : string) : number :=
  match trim (list_ascii_of_string s) with
  | [] => S754_zero false
  | (c :: l') as l =>
      match read_non_decimal l with
      | Some x => x
      | None =>
          if is_char c "-" "-" then read_unsigned_decimal true l'
          else if is_char c "+" "+" then read_unsigned_decimal false l'
          else read_unsigned_decimal false l
      end
  end.

(** [Number(v)] for a value that is a string or [undefined]. *)
Definition Number (v : option string) : number :=
  match v with
  | Some s => StringToNumber s
  | None => NaN
  end.

(** *** Number::toString (radix 10) *)

Definition pow10 (n : Z) : Q :=
  match n with
  | Zneg p => (1 / inject_Z (10 ^ Zpos p))%Q
  | _ => inject_Z (10 ^ n)
  end.

(** The real number a finite value stands for. *)
Definition real_of (m : positive) (e : Z) : Q :=
  (inject_Z (Zpos m) * Qpower 2 e)%Q.

(** The least [n' >= n] with [x < 10^n']. *)
Fixpoint exponent_from (fuel : nat) (x : Q) (n : Z) : Z :=
  match fuel with
  | O => n
  | S fuel' =>
      if Qle_bool (pow10 n) x then exponent_from fuel' x (n + 1) else n
  end.

(** The integer [n] with [10^(n-1) <= x < 10^n], for [x = m * 2^e]. *)
Definition decimal_exponent (m : positive) (e : Z) : Z :=
  let b := Zpos (digits2_pos m) + e in
  exponent_from 8 (real_of m e) (b * 30103 / 100000 - 2).

Definition Qdist (a b : Q) : Q := Qabs (a - b)%Q.

(** The pairs [(s, n)] with [k] digits in [s] for which [s * 10^(n-k)]
    has Number value [x]. *)
Definition candidates (x : number) (xq : Q) (n0 k : Z) : list (Z * Z) :=
  flat_map
    (fun n =>
       let lo := Qfloor (xq * pow10 (k - n))%Q in
       filter
         (fun sn =>
            (10 ^ (k - 1) <=? fst sn) && (fst sn <? 10 ^ k) &&
            same_value (of_decimal false (fst sn) (n - k)) x)
         [(lo, n); (lo + 1, n)])
    [n0; n0 + 1].

(** Of two candidates with the same number of digits, the one closer
    to [xq]; the even one when they are as close. *)
Definition closer (xq : Q) (k : Z) (a b : Z * Z) : Z * Z :=
  let value (sn : Z * Z) := (inject_Z (fst sn) * pow10 (snd sn - k))%Q in
  match Qcompare (Qdist (value a) xq) (Qdist (value b) xq) with
  | Lt => a
  | Gt => b
  | Eq => if Z.even (fst a) then a else b
  end.

(** The shortest digit string [s] and the exponent [n], trying
    [k = 1, 2, ...] digits in turn. *)
Fixpoint shortest (fuel : nat) (x : number) (xq : Q) (n0 k : Z) : Z * Z :=
  match fuel with
  | O => (Qfloor (xq * pow10 (k - n0))%Q, n0)
  | S fuel' =>
      match candidates x xq n0 k with
      | c :: cs => fold_left (closer xq k) cs c
      | [] => shortest fuel' x xq n0 (k + 1)
      end
  end.

Definition digits_of (s : Z) : string :=
  NilZero.string_of_uint (Pos.to_uint (Z.to_pos s)).

Fixpoint zeros (n : nat) : string :=
  match n with
  | O => EmptyString
  | S n' => String "0" (zeros n')
  end.

(** Steps 6 to 10 of Number::toString: where the point or the exponent
    goes, from the digits and the exponent [n]. *)
Definition place_point (digits : string) (n : Z) : string :=
  let k := Z.of_nat (String.length digits) in
  if (k <=? n) && (n <=? 21) then
    digits ++ zeros (Z.to_nat (n - k))
  else if (0 <? n) && (n <=? 21) then
    substring 0 (Z.to_nat n) digits ++ "." ++
    substring (Z.to_nat n) (Z.to_nat (k - n)) digits
  else if (-6 <? n) && (n <=? 0) then
    "0." ++ zeros (Z.to_nat (- n)) ++ digits
  else
    let e := n - 1 in
    let exponent := (if e <? 0 then "-" else "+") ++ digits_of (Z.abs e) in
    if k =? 1 then digits ++ "e" ++ exponent
    else substring 0 1 digits ++ "." ++
         substring 1 (Z.to_nat (k - 1)) digits ++ "e" ++ exponent.

(** Number::toString, as a template literal applies it. *)
Definition toString (x : number) : string :=
  match x with
  | S754_nan => "NaN"
  | S754_zero _ => "0"
  | S754_infinity s => if s then "-Infinity" else "Infinity"
  | S754_finite s m e =>
      let '(d, n) :=
        shortest 17 (S754_finite false m e) (real_of m e)
                 (decimal_exponent m e) 1 in
      (if s then "-" else EmptyString) ++ place_point (digits_of d) n
  end.

End Js.

(** ** The handler *)

Module Ollama.

(** *** Values, errors and completions *)

(** The values a loosely typed field of a response chunk can hold. *)
Inductive JsValue :=
| VUndefined
| VNull
| VBoolean (b : bool)
| VNumber (n : Js.number)
| VString (s : string)
| VObject.

(** A thrown error object, with the properties the handler reads. A
    property that is [undefined] is [None]. *)
Record JsError := {
  name : string;
  message : option string;
  status : option Js.number;
  statusCode : option Js.number
}.

(** [new Error(msg)]. *)
Definition new_Error (msg : string) : JsError :=
  {| name := "Error"; message := Some msg; status := None; statusCode := None |}.

(** The TypeError raised by reading property [prop] of [undefined]
    (the wording is the one of V8). *)
Definition TypeError_reading (prop : string) : JsError :=
  {| name := "TypeError";
     message := Some ("Cannot read properties of undefined (reading '" ++ prop ++ "')");
     status := None;
     statusCode := None |}.

(** [v || d] for an optional string [v]. *)
Definition or_string (v : option string) (d : string) : string :=
  match v with
  | Some s => if Js.nonempty s then s else d
  | None => d
  end.

(** [v || d] for an optional number [v]. *)
Definition or_number (v : option Js.number) (d : Js.number) : Js.number :=
  match v with
  | Some x => if Js.truthy x then x else d
  | None => d
  end.

(** [ToBoolean] of an optional string. *)
Definition string_truthy (v : option string) : bool :=
  match v with
  | Some s => Js.nonempty s
  | None => false
  end.

(** An optional property inside a template literal. *)
Definition template (v : option string) : string :=
  match v with
  | Some s => s
  | None => "undefined"
  end.

(** How a piece of code completes: normally with a value, or by
    throwing. *)
Inductive Completion (A : Type) :=
| Normal (a : A)
| Throw (e : JsError).
Arguments Normal {A} a.
Arguments Throw {A} e.

(** How a promise settles. *)
Inductive Settled (A : Type) :=
| Fulfilled (a : A)
| Rejected (e : JsError).
Arguments Fulfilled {A} a.
Arguments Rejected {A} e.

(** *** The data of the handler *)

Record OllamaHandlerOptions := {
  ollamaBaseUrl : option string;
  ollamaApiKey : option string;
  ollamaModelId : option string;
  ollamaApiOptionsCtxNum : option string;
  requestTimeoutMs : option Js.number
}.

(** The argument of [new Ollama(...)]: [headers], when present, holds
    the [Authorization] header. *)
Record ClientOptions := {
  host : string;
  headers : option string
}.

(** Ollama's [Message]. The handler tests the type of [content] on the
    messages it receives, so the field holds any value. *)
Record Message := {
  role : string;
  content : JsValue
}.

Record ChatRequestOptions := { num_ctx : Js.number }.

(** The argument of [client.chat]. *)
Record ChatRequest := {
  model : string;
  messages : list Message;
  stream : bool;
  chat_options : ChatRequestOptions
}.

(** One chunk of the streamed response, with the fields the handler
    reads; [None] is a field that is [undefined]. *)
Record ChatResponse := {
  chunk_message : option Message;
  eval_count : option Js.number;
  prompt_eval_count : option Js.number
}.

(** The async iterable [client.chat] resolves to, as the iteration
    sees it: a next chunk, the end, or an error raised by the
    iterator. *)
Inductive ChunkStream :=
| StreamEnd
| StreamThrow (e : JsError)
| StreamChunk (chunk : ChatResponse) (rest : ChunkStream).

(** The events of [ApiStream]: [{type: "text", text}] and
    [{type: "usage", inputTokens, outputTokens}]. *)
Inductive ApiStreamChunk :=
| ApiStreamTextChunk (text : string)
| ApiStreamUsageChunk (inputTokens outputTokens : Js.number).

(** Modelled from the spec: [ModelInfo] is declared in shared/api,
    which is not among the sources; it carries at least a
    [contextWindow] number, the other properties are kept as they
    are. *)
Record ModelInfo := {
  contextWindow : Js.number;
  otherProperties : list (string * JsValue)
}.

Record ModelDescriptor := {
  id : string;
  info : ModelInfo
}.

(** *** Generators *)

(** What a run of the generator does, in order: the events it yields
    and the lines it writes with [console.error]. *)
Inductive LogArg :=
| LogString (s : string)
| LogError (e : JsError).

Inductive Effect :=
| Yield (event : ApiStreamChunk)
| ConsoleError (args : list LogArg).

(** A generator body run to its end by a consumer that takes every
    event: the trace of its effects and how it completes. *)
Definition Gen (A : Type) : Type := list Effect * Completion A.

Definition ret {A} (a : A) : Gen A := ([], Normal a).

Definition throw {A} (e : JsError) : Gen A := ([], Throw e).

Definition yield (event : ApiStreamChunk) : Gen unit := ([Yield event], Normal tt).

Definition console_error (args : list LogArg) : Gen unit :=
  ([ConsoleError args], Normal tt).

Definition bind {A B} (m : Gen A) (k : A -> Gen B) : Gen B :=
  match m with
  | (tr, Normal a) => let '(tr', c) := k a in ((tr ++ tr')%list, c)
  | (tr, Throw e) => (tr, Throw e)
  end.

(** [try { m } catch (e) { handler e }]. *)
Definition try_catch {A} (m : Gen A) (handler : JsError -> Gen A) : Gen A :=
  match m with
  | (tr, Normal a) => (tr, Normal a)
  | (tr, Throw e) => let '(tr', c) := handler e in ((tr ++ tr')%list, c)
  end.

(** [await p] on a promise that settles. *)
Definition await {A} (p : Settled A) : Gen A :=
  match p with
  | Fulfilled a => ret a
  | Rejected e => throw e
  end.

Notation "x <- m ;; k" := (bind m (fun x => k))
  (at level 61, m at next level, right associativity).
Notation "m ;; k" := (bind m (fun _ => k))
  (at level 61, right associativity).

(** The events a run yields, in order. *)
Definition yields {A} (g : Gen A) : list ApiStreamChunk :=
  flat_map (fun ef => match ef with Yield ev => [ev] | ConsoleError _ => [] end)
           (fst g).

(** The lines a run writes with [console.error], in order. *)
Definition logged {A} (g : Gen A) : list (list LogArg) :=
  flat_map (fun ef => match ef with Yield _ => [] | ConsoleError a => [a] end)
           (fst g).

Definition completion {A} (g : Gen A) : Completion A := snd g.

(** *** The class [OllamaHandler] *)

(** Which of the two promises given to [Promise.race] settles first.
    The request may never settle; the timer always fires. Wall-clock
    time is not part of the model: the order is what the environment
    decides. *)
Inductive RaceOrder :=
| RequestFirst
| TimerFirst.

(** [await Promise.race([apiPromise, timeoutPromise])]. *)
Definition Promise_race {A} (first : RaceOrder)
    (apiPromise timeoutPromise : Settled A) : Settled A :=
  match first with
  | RequestFirst => apiPromise
  | TimerFirst => timeoutPromise
  end.

Section Handler.

(** What the module imports: the client class of the ollama package
    with its constructor, the message converter of
    transform/ollama-format, and the table of default model
    properties of shared/api. None of them is among the sources. *)
Variable Ollama : Type.
Variable new_Ollama : ClientOptions -> Completion Ollama.
Variable MessageParam : Type.
Variable convertToOllamaMessages : list MessageParam -> list Message.
Variable openAiModelInfoSaneDefaults : ModelInfo.

(** The fields of an instance. *)
Record OllamaHandler := {
  options : OllamaHandlerOptions;
  client : option Ollama
}.

(** [new OllamaHandler(options)]. *)
Definition constructor (o : OllamaHandlerOptions) : OllamaHandler :=
  {| options := o; client := None |}.

(** What one call meets on the network: how the promise of
    [client.chat] settles when it does so before the timer fires, and
    which of the two comes first. *)
Record Network := {
  chat : Ollama -> ChatRequest -> Settled ChunkStream;
  first_settled : RaceOrder
}.

(** The object literal [clientOptions] of [ensureClient]. *)
Definition clientOptions (o : OllamaHandlerOptions) : ClientOptions :=
  {| host := or_string (ollamaBaseUrl o) "http://localhost:11434";
     headers :=
       if string_truthy (ollamaApiKey o)
       then Some ("Bearer " ++ template (ollamaApiKey o))
       else None |}.

(** [ensureClient]: the instance after the call and the completion. *)
Definition ensureClient (this : OllamaHandler)
  : OllamaHandler * Completion Ollama :=
  match client this with
  | Some c => (this, Normal c)
  | None =>
      match new_Ollama (clientOptions (options this)) with
      | Normal c => ({| options := options this; client := Some c |}, Normal c)
      | Throw error =>
          (this,
           Throw (new_Error ("Error creating Ollama client: " ++
                             template (message error))))
      end
  end.

(** [{ ...info, contextWindow: n }]. *)
Definition with_contextWindow (i : ModelInfo) (n : Js.number) : ModelInfo :=
  {| contextWindow := n; otherProperties := otherProperties i |}.

(** [x || d] on numbers. *)
Definition number_or (x d : Js.number) : Js.number :=
  if Js.truthy x then x else d.

(** [getModel]. *)
Definition getModel (this : OllamaHandler) : ModelDescriptor :=
  {| id := or_string (ollamaModelId (options this)) EmptyString;
     info :=
       if string_truthy (ollamaApiOptionsCtxNum (options this))
       then with_contextWindow openAiModelInfoSaneDefaults
              (number_or (Js.Number (ollamaApiOptionsCtxNum (options this)))
                         (Js.of_Z 32768))
       else openAiModelInfoSaneDefaults |}.

(** [this.options.requestTimeoutMs || 30000]. *)
Definition timeoutMs (this : OllamaHandler) : Js.number :=
  or_number (requestTimeoutMs (options this)) (Js.of_Z 30000).

(** The message of the timeout error, the same template on both
    lines that build it. *)
Definition timeout_message (ms : Js.number) : string :=
  "Ollama request timed out after " ++
  Js.toString (Js.div ms (Js.of_Z 1000)) ++ " seconds".

(** The argument of [client.chat]. *)
Definition chat_request (this : OllamaHandler) (ollamaMessages : list Message)
  : ChatRequest :=
  {| model := id (getModel this);
     messages := ollamaMessages;
     stream := true;
     chat_options :=
       {| num_ctx :=
            number_or (Js.Number (ollamaApiOptionsCtxNum (options this)))
                      (Js.of_Z 32768) |} |}.

(** [chunk.message.content]: reading [content] of a message that is
    [undefined] throws. *)
Definition message_content (chunk : ChatResponse) : Gen JsValue :=
  match chunk_message chunk with
  | Some m => ret (content m)
  | None => throw (TypeError_reading "content")
  end.

(** [v !== undefined]. *)
Definition defined {A} (v : option A) : bool :=
  match v with
  | Some _ => true
  | None => false
  end.

(** The body of the [for await] loop. A value has type ["string"]
    exactly when it is a [VString]. *)
Definition translate_chunk (chunk : ChatResponse) : Gen unit :=
  c <- message_content chunk ;;
  match c with
  | VString text => yield (ApiStreamTextChunk text)
  | _ => ret tt
  end ;;
  if defined (eval_count chunk) || defined (prompt_eval_count chunk)
  then yield (ApiStreamUsageChunk
                (or_number (prompt_eval_count chunk) (Js.of_Z 0))
                (or_number (eval_count chunk) (Js.of_Z 0)))
  else ret tt.

(** [for await (const chunk of stream) body]. *)
Fixpoint for_await (s : ChunkStream) (body : ChatResponse -> Gen unit)
  : Gen unit :=
  match s with
  | StreamEnd => ret tt
  | StreamThrow e => throw e
  | StreamChunk chunk rest => body chunk ;; for_await rest body
  end.

(** The handler of the inner [catch]. *)
Definition stream_error (streamError : JsError) : Gen unit :=
  console_error [LogString "Error processing Ollama stream:"; LogError streamError] ;;
  throw (new_Error ("Ollama stream processing error: " ++
                    or_string (message streamError) "Unknown error")).

(** The inner [try]: the loop over the stream and its [catch]. *)
Definition process_stream (s : ChunkStream) : Gen unit :=
  try_catch (for_await s translate_chunk) stream_error.

(** [error.message && error.message.includes("timed out")]. *)
Definition is_timeout (error : JsError) : bool :=
  match message error with
  | Some m => Js.nonempty m && Js.includes m "timed out"
  | None => false
  end.

(** [statusCode || "unknown"] inside the template literal, for
    [statusCode = error.status || error.statusCode]. *)
Definition status_text (error : JsError) : string :=
  let statusCode :=
    match status error with
    | Some x => if Js.truthy x then Some x else statusCode error
    | None => statusCode error
    end in
  match statusCode with
  | Some x => if Js.truthy x then Js.toString x else "unknown"
  | None => "unknown"
  end.

(** The handler of the outer [catch]. *)
Definition classify_error (this : OllamaHandler) (error : JsError) : Gen unit :=
  if is_timeout error then
    throw (new_Error (timeout_message (timeoutMs this)))
  else
    console_error
      [LogString ("Ollama API error (" ++ status_text error ++ "): " ++
                  or_string (message error) "Unknown error")] ;;
    throw error.

(** The outer [try] of [createMessage], for a client already there. *)
Definition request_and_stream (net : Network) (this : OllamaHandler)
    (c : Ollama) (ollamaMessages : list Message) : Gen unit :=
  try_catch
    (let timeoutPromise :=
       Rejected (new_Error (timeout_message (timeoutMs this))) in
     let apiPromise := chat net c (chat_request this ollamaMessages) in
     s <- await (Promise_race (first_settled net) apiPromise timeoutPromise) ;;
     process_stream s)
    (classify_error this).

(** [createMessage], without the retry decorator: the instance after
    the call and the run of the generator. *)
Definition createMessage (net : Network) (this : OllamaHandler)
    (systemPrompt : string) (msgs : list MessageParam)
  : OllamaHandler * Gen unit :=
  match ensureClient this with
  | (this', Throw e) => (this', throw e)
  | (this', Normal c) =>
      let ollamaMessages :=
        {| role := "system"; content := VString systemPrompt |}
          :: convertToOllamaMessages msgs in
      (this', request_and_stream net this' c ollamaMessages)
  end.

(** *** Vocabulary of the properties *)

(** The content field of a chunk, when the chunk carries a message. *)
Definition chunk_content (chunk : ChatResponse) : option JsValue :=
  option_map content (chunk_message chunk).

Definition has_message (chunk : ChatResponse) : Prop :=
  chunk_message chunk <> None.

(** The texts of the text events of a run, and its usage events. *)
Definition text_events {A} (g : Gen A) : list string :=
  flat_map (fun ev => match ev with
                      | ApiStreamTextChunk t => [t]
                      | ApiStreamUsageChunk _ _ => []
                      end) (yields g).

Definition usage_events {A} (g : Gen A) : list (Js.number * Js.number) :=
  flat_map (fun ev => match ev with
                      | ApiStreamTextChunk _ => []
                      | ApiStreamUsageChunk i o => [(i, o)]
                      end) (yields g).

(** The stream that delivers the chunks [cs] and goes on as [rest]. *)
Fixpoint stream_of (cs : list ChatResponse) (rest : ChunkStream) : ChunkStream :=
  match cs with
  | [] => rest
  | c :: cs' => StreamChunk c (stream_of cs' rest)
  end.

(** All the chunks of a stream, and how its iterator ends. *)
Fixpoint chunks (s : ChunkStream) : list ChatResponse :=
  match s with
  | StreamChunk c rest => c :: chunks rest
  | _ => []
  end.

Fixpoint ending (s : ChunkStream) : Completion unit :=
  match s with
  | StreamChunk _ rest => ending rest
  | StreamThrow e => Throw e
  | StreamEnd => Normal tt
  end.

(** The chunks the loop takes from a stream: all of them up to the end,
    to the error of the iterator, or to the first chunk whose
    translation throws. *)
Fixpoint consumed (s : ChunkStream) : list ChatResponse :=
  match s with
  | StreamChunk c rest =>
      c :: match completion (translate_chunk c) with
           | Normal _ => consumed rest
           | Throw _ => []
           end
  | _ => []
  end.

(** The error the inner [catch] throws for [streamError]. *)
Definition StreamProcessingError (streamError : JsError) : JsError :=
  new_Error ("Ollama stream processing error: " ++
             or_string (message streamError) "Unknown error").

(** The error both timeout lines throw. *)
Definition TimeoutError (this : OllamaHandler) : JsError :=
  new_Error (timeout_message (timeoutMs this)).

(** The message of an error mentions a timeout, the way the outer
    [catch] looks for it. *)
Definition mentions_timeout (error : JsError) : Prop :=
  exists m, message error = Some m /\ Js.includes m "timed out" = true.

(** A chunk with the given content and token counts, in a message of
    the assistant. *)
Definition chunk_with (c : JsValue) (evals prompts : option Js.number)
  : ChatResponse :=
  {| chunk_message := Some {| role := "assistant"; content := c |};
     eval_count := evals;
     prompt_eval_count := prompts |}.

(** A chunk without a message object. *)
Definition chunk_without_message (evals prompts : option Js.number)
  : ChatResponse :=
  {| chunk_message := None; eval_count := evals; prompt_eval_count := prompts |}.

(** A call on the network [net_of p first]: the request settles as
    [p], and [first] says whether it does so before the timer. *)
Definition net_of (p : Settled ChunkStream) (first : RaceOrder) : Network :=
  {| chat := fun _ _ => p; first_settled := first |}.

(** Options with nothing set, and with one field set. *)
Definition no_options : OllamaHandlerOptions :=
  {| ollamaBaseUrl := None; ollamaApiKey := None; ollamaModelId := None;
     ollamaApiOptionsCtxNum := None; requestTimeoutMs := None |}.

Definition with_timeout (t : Js.number) : OllamaHandlerOptions :=
  {| ollamaBaseUrl := None; ollamaApiKey := None; ollamaModelId := None;
     ollamaApiOptionsCtxNum := None; requestTimeoutMs := Some t |}.

Definition with_ctx (s : string) : OllamaHandlerOptions :=
  {| ollamaBaseUrl := None; ollamaApiKey := None; ollamaModelId := None;
     ollamaApiOptionsCtxNum := Some s; requestTimeoutMs := None |}.

(** The options with every falsy value taken out. *)
Definition drop_falsy (o : OllamaHandlerOptions) : OllamaHandlerOptions :=
  let keep (v : option string) := if string_truthy v then v else None in
  {| ollamaBaseUrl := keep (ollamaBaseUrl o);
     ollamaApiKey := keep (ollamaApiKey o);
     ollamaModelId := keep (ollamaModelId o);
     ollamaApiOptionsCtxNum := keep (ollamaApiOptionsCtxNum o);
     requestTimeoutMs :=
       match requestTimeoutMs o with
       | Some t => if Js.truthy t then Some t else None
       | None => None
       end |}.

(** The events of one chunk, as a function of the chunk. *)
Definition chunk_events (chunk : ChatResponse) : list ApiStreamChunk :=
  yields (translate_chunk chunk).

(** The run of the generator of a call. *)
Definition run (net : Network) (this : OllamaHandler) (systemPrompt : string)
    (msgs : list MessageParam) : Gen unit :=
  snd (createMessage net this systemPrompt msgs).

(** The request the call sends. *)
Definition sent_request (this : OllamaHandler) (systemPrompt : string)
    (msgs : list MessageParam) : ChatRequest :=
  chat_request this
    ({| role := "system"; content := VString systemPrompt |}
       :: convertToOllamaMessages msgs).

(** The call has a client [c], from the cache or newly made. *)
Definition has_client (this : OllamaHandler) (c : Ollama) : Prop :=
  exists this', ensureClient this = (this', Normal c).

(** The call gets the stream [s]: it has a client, and the request
    settles before the timer, fulfilled with [s]. *)
Definition established (net : Network) (this : OllamaHandler)
    (systemPrompt : string) (msgs : list MessageParam) (s : ChunkStream) : Prop :=
  exists c, has_client this c /\
            first_settled net = RequestFirst /\
            chat net c (sent_request this systemPrompt msgs) = Fulfilled s.

(** The three chunks of scenario A: two texts, then a chunk with no
    content and both token counts. *)
Definition scenario_A : ChunkStream :=
  stream_of
    [chunk_with (VString "Hello") None None;
     chunk_with (VString " world") None None;
     chunk_with VUndefined (Some (Js.of_Z 5)) (Some (Js.of_Z 12))]
    StreamEnd.

(** What the examples are linked with: a client that is always made,
    no message to convert, and a table of defaults whose context
    window is 128000. *)
Definition sample_new_Ollama (_ : ClientOptions) : Completion unit := Normal tt.

Definition sample_convert (_ : list unit) : list Message := [].

Definition sample_defaults : ModelInfo :=
  {| contextWindow := Js.of_Z 128000; otherProperties := [] |}.

(** ** Properties *)

(** *** Runs of generators *)

Lemma yields_bind {A B} (m : Gen A) (k : A -> Gen B) :
  yields (x <- m ;; k x) =
  (yields m ++ match completion m with
               | Normal a => yields (k a)
               | Throw _ => []
               end)%list.
Proof.
  destruct m as [tr [a | e]]; unfold yields, completion; simpl.
  - destruct (k a) as [tr' c]; simpl. now rewrite flat_map_app.
  - now rewrite app_nil_r.
Qed.

Lemma completion_bind {A B} (m : Gen A) (k : A -> Gen B) :
  completion (x <- m ;; k x) =
  match completion m with
  | Normal a => completion (k a)
  | Throw e => Throw e
  end.
Proof.
  destruct m as [tr [a | e]]; unfold completion; simpl; trivial.
  now destruct (k a).
Qed.

Lemma yields_try_catch {A} (m : Gen A) (h : JsError -> Gen A) :
  yields (try_catch m h) =
  (yields m ++ match completion m with
               | Normal _ => []
               | Throw e => yields (h e)
               end)%list.
Proof.
  destruct m as [tr [a | e]]; unfold yields, completion; simpl.
  - now rewrite app_nil_r.
  - destruct (h e) as [tr' c]; simpl. now rewrite flat_map_app.
Qed.

Lemma completion_try_catch {A} (m : Gen A) (h : JsError -> Gen A) :
  completion (try_catch m h) =
  match completion m with
  | Normal a => Normal a
  | Throw e => completion (h e)
  end.
Proof.
  destruct m as [tr [a | e]]; unfold completion; simpl; trivial.
  now destruct (h e).
Qed.

(** *** The translation of one chunk *)

(** What one chunk yields, spelled out: nothing when it has no
    message; otherwise its text, if the content is a string, and then
    its usage, if a token count is defined. *)
Lemma translate_chunk_yields (chunk : ChatResponse) :
  yields (translate_chunk chunk) =
  match chunk_message chunk with
  | None => []
  | Some m =>
      (match content m with
       | VString text => [ApiStreamTextChunk text]
       | _ => []
       end ++
       if defined (eval_count chunk) || defined (prompt_eval_count chunk)
       then [ApiStreamUsageChunk
               (or_number (prompt_eval_count chunk) (Js.of_Z 0))
               (or_number (eval_count chunk) (Js.of_Z 0))]
       else [])%list
  end.
Proof.
  unfold translate_chunk, message_content.
  destruct (chunk_message chunk) as [m |]; [| reflexivity].
  destruct (content m);
    destruct (defined (eval_count chunk) || defined (prompt_eval_count chunk));
    reflexivity.
Qed.

Lemma translate_chunk_completion (chunk : ChatResponse) :
  completion (translate_chunk chunk) =
  match chunk_message chunk with
  | None => Throw (TypeError_reading "content")
  | Some _ => Normal tt
  end.
Proof.
  unfold translate_chunk, message_content.
  destruct (chunk_message chunk) as [m |]; [| reflexivity].
  destruct (content m);
    destruct (defined (eval_count chunk) || defined (prompt_eval_count chunk));
    reflexivity.
Qed.

(** The events of a chunk are its text events followed by its usage
    events. *)
Lemma chunk_events_text_then_usage (chunk : ChatResponse) :
  chunk_events chunk =
  (map ApiStreamTextChunk (text_events (translate_chunk chunk)) ++
   map (fun io => ApiStreamUsageChunk (fst io) (snd io))
       (usage_events (translate_chunk chunk)))%list.
Proof.
  unfold chunk_events, text_events, usage_events.
  rewrite translate_chunk_yields.
  destruct (chunk_message chunk) as [m |]; simpl; [| reflexivity].
  destruct (content m);
    destruct (defined (eval_count chunk) || defined (prompt_eval_count chunk));
    reflexivity.
Qed.

(** C1, as the code has it: a chunk yields one text event carrying its
    content when the content is a string, the empty string included,
    and no text event otherwise (a content of another type, no
    content, no message). *)
Theorem text_event_iff_string_content (chunk : ChatResponse) :
  text_events (translate_chunk chunk) =
  match chunk_content chunk with
  | Some (VString text) => [text]
  | _ => []
  end.
Proof.
  unfold text_events, chunk_content.
  rewrite translate_chunk_yields.
  destruct (chunk_message chunk) as [m |]; simpl; [| reflexivity].
  rewrite flat_map_app.
  destruct (defined (eval_count chunk) || defined (prompt_eval_count chunk));
    destruct (content m); reflexivity.
Qed.

(** C3, as the code has it: a chunk that carries a message yields one
    usage event when a token count is defined, with [0] for the count
    that is not, and none when both are undefined, whatever its
    content; a chunk without a message yields no event. A chunk yields
    at most two events, the text first. *)
Theorem usage_event_iff_count_defined (chunk : ChatResponse) :
  usage_events (translate_chunk chunk) =
    match chunk_message chunk with
    | None => []
    | Some _ =>
        match prompt_eval_count chunk, eval_count chunk with
        | None, None => []
        | Some p, None => [(number_or p (Js.of_Z 0), Js.of_Z 0)]
        | None, Some e => [(Js.of_Z 0, number_or e (Js.of_Z 0))]
        | Some p, Some e => [(number_or p (Js.of_Z 0), number_or e (Js.of_Z 0))]
        end
    end /\
  yields (translate_chunk chunk) =
    (map ApiStreamTextChunk (text_events (translate_chunk chunk)) ++
     map (fun io => ApiStreamUsageChunk (fst io) (snd io))
         (usage_events (translate_chunk chunk)))%list /\
  (List.length (yields (translate_chunk chunk)) <= 2)%nat.
Proof.
  split; [| split].
  - unfold usage_events. rewrite translate_chunk_yields.
    destruct (chunk_message chunk) as [m |]; simpl; [| reflexivity].
    now destruct (prompt_eval_count chunk) as [p |],
      (eval_count chunk) as [e |], (content m).
  - apply chunk_events_text_then_usage.
  - rewrite translate_chunk_yields.
    destruct (chunk_message chunk) as [m |]; simpl; [| auto].
    destruct (content m);
      destruct (defined (eval_count chunk) || defined (prompt_eval_count chunk));
      simpl; auto.
Qed.

(** *** The loop over the stream *)

Lemma for_await_yields (s : ChunkStream) :
  yields (for_await s translate_chunk) = flat_map chunk_events (consumed s).
Proof.
  induction s as [| e | c rest IH]; simpl; try reflexivity.
  rewrite yields_bind. unfold chunk_events at 1.
  destruct (completion (translate_chunk c)); simpl.
  - now rewrite IH.
  - reflexivity.
Qed.

(** A stream whose first chunks all carry a message: the loop takes
    them all and goes on with the rest. *)
Lemma for_await_stream_of (cs : list ChatResponse) (rest : ChunkStream) :
  Forall has_message cs ->
  yields (for_await (stream_of cs rest) translate_chunk) =
    (flat_map chunk_events cs ++ yields (for_await rest translate_chunk))%list /\
  completion (for_await (stream_of cs rest) translate_chunk) =
    completion (for_await rest translate_chunk).
Proof.
  induction 1 as [| c cs Hc _ [IHy IHc]]; simpl; [now split |].
  rewrite yields_bind, completion_bind, translate_chunk_completion.
  unfold has_message in Hc.
  destruct (chunk_message c) as [m |]; [| contradiction].
  rewrite IHy, IHc, <- app_assoc. now split.
Qed.

Lemma process_stream_yields (s : ChunkStream) :
  yields (process_stream s) = flat_map chunk_events (consumed s).
Proof.
  unfold process_stream. rewrite yields_try_catch, for_await_yields.
  destruct (completion (for_await s translate_chunk)); simpl;
    now rewrite app_nil_r.
Qed.

Lemma process_stream_completion (s : ChunkStream) :
  completion (process_stream s) =
  match completion (for_await s translate_chunk) with
  | Normal a => Normal a
  | Throw e => Throw (StreamProcessingError e)
  end.
Proof.
  unfold process_stream. rewrite completion_try_catch.
  now destruct (completion (for_await s translate_chunk)).
Qed.

(** *** The two [catch] handlers and the race *)

Lemma prefix_append (sub a b : string) :
  String.prefix sub a = true -> String.prefix sub (a ++ b) = true.
Proof.
  revert sub. induction a as [| ch a IH]; intros [| ch' sub]; simpl;
    trivial; try discriminate.
  - now destruct b.
  - destruct (ascii_dec ch' ch); [apply IH | discriminate].
Qed.

Lemma includes_append (a b sub : string) :
  Js.includes a sub = true -> Js.includes (a ++ b) sub = true.
Proof.
  induction a as [| ch a IH]; simpl.
  - rewrite orb_false_r. intros H. destruct sub; [| discriminate].
    destruct b; reflexivity.
  - intros H. apply orb_true_iff in H. apply orb_true_iff.
    destruct H as [H | H].
    + left. now apply (prefix_append sub (String ch a) b).
    + right. now apply IH.
Qed.

(** The timeout error is one the outer [catch] takes for a timeout,
    whatever the duration in it. *)
Lemma is_timeout_timeout_message (ms : Js.number) :
  is_timeout (new_Error (timeout_message ms)) = true.
Proof.
  unfold is_timeout, timeout_message, new_Error. cbn [message].
  apply andb_true_iff. split; [reflexivity |].
  now apply includes_append.
Qed.

Lemma is_timeout_iff (error : JsError) :
  is_timeout error = true <-> mentions_timeout error.
Proof.
  unfold is_timeout, mentions_timeout. split.
  - destruct (message error) as [m |]; [| discriminate].
    intros H. apply andb_true_iff in H. exists m. tauto.
  - intros [m [-> H]]. apply andb_true_iff. split; [| exact H].
    destruct m; [discriminate | reflexivity].
Qed.

(** The outer [catch] reads the instance only through its options. *)
Lemma classify_error_options (a b : OllamaHandler) (error : JsError) :
  options a = options b -> classify_error a error = classify_error b error.
Proof.
  intros H. unfold classify_error, timeoutMs. now rewrite H.
Qed.

Lemma ensureClient_options (this this' : OllamaHandler) (r : Completion Ollama) :
  ensureClient this = (this', r) -> options this' = options this.
Proof.
  unfold ensureClient. destruct (client this).
  - intros [= <- _]. reflexivity.
  - destruct (new_Ollama _); intros [= <- _]; reflexivity.
Qed.

Lemma chat_request_options (a b : OllamaHandler) (l : list Message) :
  options a = options b -> chat_request a l = chat_request b l.
Proof.
  intros H. unfold chat_request, getModel. now rewrite H.
Qed.

(** With a client, the run is the outer [try] around the race. *)
Lemma run_with_client net this systemPrompt msgs c :
  has_client this c ->
  run net this systemPrompt msgs =
  try_catch
    (s <- await (Promise_race (first_settled net)
                   (chat net c (sent_request this systemPrompt msgs))
                   (Rejected (TimeoutError this))) ;;
     process_stream s)
    (classify_error this).
Proof.
  intros [this' H]. unfold run, createMessage. rewrite H. simpl.
  pose proof (ensureClient_options _ _ _ H) as Ho.
  unfold request_and_stream, sent_request, TimeoutError, timeoutMs.
  rewrite (chat_request_options this' this _ Ho), Ho.
  destruct (await _ ;; _) as [tr [a | e]]; simpl; trivial.
  now rewrite (classify_error_options this' this e Ho).
Qed.

Lemma run_established net this systemPrompt msgs s :
  established net this systemPrompt msgs s ->
  run net this systemPrompt msgs =
  try_catch (process_stream s) (classify_error this).
Proof.
  intros [c [Hc [Hfirst Hchat]]].
  rewrite (run_with_client _ _ _ _ c Hc), Hfirst, Hchat. simpl.
  now destruct (process_stream s) as [tr [[] | e]].
Qed.

(** The outer [catch] yields no event. *)
Lemma classify_error_yields this error : yields (classify_error this error) = [].
Proof. unfold classify_error. now destruct (is_timeout error). Qed.

Lemma classify_error_completion this error :
  completion (classify_error this error) =
  Throw (if is_timeout error then TimeoutError this else error).
Proof. unfold classify_error. now destruct (is_timeout error). Qed.

Lemma run_established_yields net this systemPrompt msgs s :
  established net this systemPrompt msgs s ->
  yields (run net this systemPrompt msgs) = flat_map chunk_events (consumed s).
Proof.
  intros H. rewrite (run_established _ _ _ _ _ H), yields_try_catch.
  rewrite process_stream_yields.
  destruct (completion (process_stream s)); simpl;
    now rewrite ?classify_error_yields, app_nil_r.
Qed.

Lemma run_established_completion net this systemPrompt msgs s :
  established net this systemPrompt msgs s ->
  completion (run net this systemPrompt msgs) =
  match completion (for_await s translate_chunk) with
  | Normal a => Normal a
  | Throw e =>
      Throw (if is_timeout (StreamProcessingError e)
             then TimeoutError this
             else StreamProcessingError e)
  end.
Proof.
  intros H. rewrite (run_established _ _ _ _ _ H), completion_try_catch.
  rewrite process_stream_completion.
  destruct (completion (for_await s translate_chunk)); trivial.
  apply classify_error_completion.
Qed.

(** *** The event stream *)

(** C8: the events of a call that gets a stream are the events of the
    chunks the loop takes, chunk after chunk in the order of the
    stream; the events of one chunk are its text first and its usage
    after; on the three chunks of scenario A the run yields the two
    texts and the usage, in this order, and ends normally. *)
Theorem events_follow_chunk_order net this systemPrompt msgs s :
  established net this systemPrompt msgs s ->
  yields (run net this systemPrompt msgs) = flat_map chunk_events (consumed s) /\
  (forall chunk,
     chunk_events chunk =
     (map ApiStreamTextChunk (text_events (translate_chunk chunk)) ++
      map (fun io => ApiStreamUsageChunk (fst io) (snd io))
          (usage_events (translate_chunk chunk)))%list) /\
  (s = scenario_A ->
   run net this systemPrompt msgs =
   ([Yield (ApiStreamTextChunk "Hello");
     Yield (ApiStreamTextChunk " world");
     Yield (ApiStreamUsageChunk (Js.of_Z 12) (Js.of_Z 5))],
    Normal tt)).
Proof.
  intros H. split; [now apply run_established_yields |]. split.
  - apply chunk_events_text_then_usage.
  - intros ->. now rewrite (run_established _ _ _ _ _ H).
Qed.

(** C4, as the code has it: when the iterator of the stream raises
    [e] after chunks that all carry a message, the inner [catch]
    throws a stream processing error with the message of [e], or
    with "Unknown error" when [e] has no message or an empty one; the
    events of the chunks before the error are yielded and no other;
    and the call ends with that error, unless its message contains
    "timed out": then the outer [catch] throws the timeout error in
    its place. *)
Theorem stream_error_is_wrapped net this systemPrompt msgs prefix e :
  Forall has_message prefix ->
  established net this systemPrompt msgs (stream_of prefix (StreamThrow e)) ->
  completion (process_stream (stream_of prefix (StreamThrow e))) =
    Throw (new_Error ("Ollama stream processing error: " ++
                      match message e with
                      | Some (String c m) => String c m
                      | _ => "Unknown error"
                      end)) /\
  yields (run net this systemPrompt msgs) = flat_map chunk_events prefix /\
  completion (run net this systemPrompt msgs) =
    Throw (if is_timeout (StreamProcessingError e)
           then TimeoutError this
           else StreamProcessingError e).
Proof.
  intros Hp H.
  destruct (for_await_stream_of prefix (StreamThrow e) Hp) as [Hy Hc].
  simpl in Hy, Hc. rewrite app_nil_r in Hy.
  split; [| split].
  - rewrite process_stream_completion, Hc. unfold StreamProcessingError, or_string.
    now destruct (message e) as [[| c m] |].
  - rewrite (run_established _ _ _ _ _ H), yields_try_catch.
    unfold process_stream at 1. rewrite yields_try_catch, Hy, Hc.
    rewrite process_stream_completion, Hc.
    now rewrite classify_error_yields, !app_nil_r.
  - now rewrite (run_established_completion _ _ _ _ _ H), Hc.
Qed.

(** C9: a chunk without a message, after chunks that all carry one,
    ends the call with the stream processing error of the TypeError
    its field access throws: the events of the chunks before it are
    yielded, nothing of what follows it is. When every chunk of a
    stream carries a message, no field access throws: the loop takes
    every chunk and completes the way the iterator ends. *)
Theorem chunk_without_message_ends_stream :
  (forall net this systemPrompt msgs prefix chunk rest,
     Forall has_message prefix ->
     chunk_message chunk = None ->
     established net this systemPrompt msgs
                 (stream_of prefix (StreamChunk chunk rest)) ->
     yields (run net this systemPrompt msgs) = flat_map chunk_events prefix /\
     completion (run net this systemPrompt msgs) =
       Throw (new_Error
                "Ollama stream processing error: Cannot read properties of undefined (reading 'content')")) /\
  (forall s,
     Forall has_message (chunks s) ->
     (forall chunk, In chunk (chunks s) ->
                    exists v, message_content chunk = ret v) /\
     consumed s = chunks s /\
     completion (for_await s translate_chunk) = ending s).
Proof.
  split.
  - intros net this systemPrompt msgs prefix chunk rest Hp Hc H.
    destruct (for_await_stream_of prefix (StreamChunk chunk rest) Hp) as [Hy Hk].
    simpl in Hy, Hk.
    rewrite yields_bind, translate_chunk_yields, translate_chunk_completion, Hc in Hy.
    rewrite completion_bind, translate_chunk_completion, Hc in Hk.
    simpl in Hy. rewrite app_nil_r in Hy. split.
    + rewrite (run_established_yields _ _ _ _ _ H), <- for_await_yields. exact Hy.
    + now rewrite (run_established_completion _ _ _ _ _ H), Hk.
  - intros s Hs. split; [| split].
    + intros chunk Hin. rewrite Forall_forall in Hs. specialize (Hs chunk Hin).
      unfold has_message in Hs. unfold message_content.
      destruct (chunk_message chunk) as [m |]; [now exists (content m) | contradiction].
    + induction s as [| e | c rest IH]; simpl in *; trivial.
      inversion Hs as [| ? ? Hc Hrest]; subst.
      rewrite translate_chunk_completion. unfold has_message in Hc.
      destruct (chunk_message c); [| contradiction]. now rewrite IH.
    + induction s as [| e | c rest IH]; simpl in *; trivial.
      inversion Hs as [| ? ? Hc Hrest]; subst.
      rewrite completion_bind, translate_chunk_completion. unfold has_message in Hc.
      destruct (chunk_message c); [| contradiction]. now apply IH.
Qed.

(** *** The timeout race and the outer [catch] *)

(** C5, as the code has it: the duration is the configured one when
    that is a number other than zero and NaN, and 30000 when it is
    not set, zero or NaN. When the timer fires first the call yields
    nothing and fails with the timeout error, whose message gives the
    duration divided by 1000; when the request settles first, the call
    goes on with what the request settled to, fulfilled or rejected. *)
Theorem timer_or_request_decides net this systemPrompt msgs c :
  has_client this c ->
  timeoutMs this =
    match requestTimeoutMs (options this) with
    | Some t => if Js.truthy t then t else Js.of_Z 30000
    | None => Js.of_Z 30000
    end /\
  (first_settled net = TimerFirst ->
   run net this systemPrompt msgs =
   ([], Throw (new_Error
                 ("Ollama request timed out after " ++
                  Js.toString (Js.div (timeoutMs this) (Js.of_Z 1000)) ++
                  " seconds")))) /\
  (first_settled net = RequestFirst ->
   (forall s,
      chat net c (sent_request this systemPrompt msgs) = Fulfilled s ->
      run net this systemPrompt msgs =
      try_catch (process_stream s) (classify_error this)) /\
   (forall e,
      chat net c (sent_request this systemPrompt msgs) = Rejected e ->
      run net this systemPrompt msgs = classify_error this e)).
Proof.
  intros Hc. split; [reflexivity |]. split; intros Hfirst.
  - rewrite (run_with_client _ _ _ _ c Hc), Hfirst.
    unfold Promise_race, await, throw, bind, try_catch, TimeoutError, classify_error.
    now rewrite is_timeout_timeout_message.
  - split.
    + intros s Hs. apply run_established. now exists c.
    + intros e He. rewrite (run_with_client _ _ _ _ c Hc), Hfirst, He. simpl.
      now destruct (classify_error this e).
Qed.

(** What [includes] computes: the string is the searched one between
    two others. *)
Lemma prefix_iff (sub s : string) :
  String.prefix sub s = true <-> exists b, s = sub ++ b.
Proof.
  revert s. induction sub as [| c sub IH]; intros s.
  - split; [now exists s | now destruct s].
  - destruct s as [| d s]; [split; [discriminate | now intros [b H]] |].
    simpl. destruct (ascii_dec c d) as [-> | Hne].
    + split.
      * intros H. apply IH in H. destruct H as [b H]. exists b. now rewrite H.
      * intros [b H]. injection H as H. apply IH. now exists b.
    + split; [discriminate |]. intros [b H]. injection H as H _. congruence.
Qed.

Lemma includes_iff (s sub : string) :
  Js.includes s sub = true <-> exists a b, s = a ++ sub ++ b.
Proof.
  induction s as [| ch s IH].
  - simpl. rewrite orb_false_r. split.
    + destruct sub; [| discriminate]. now exists EmptyString, EmptyString.
    + intros [[| c a] [b H]]; [| discriminate]. simpl in H.
      now destruct sub.
  - change (Js.includes (String ch s) sub)
      with (String.prefix sub (String ch s) || Js.includes s sub).
    rewrite orb_true_iff, IH. split.
    + intros [H | [a [b H]]].
      * apply prefix_iff in H. destruct H as [b H]. now exists EmptyString, b.
      * exists (String ch a), b. simpl. now rewrite H.
    + intros [[| c a] [b H]].
      * left. apply prefix_iff. now exists b.
      * right. simpl in H. injection H as _ H. now exists a, b.
Qed.

Lemma mentions_timeout_iff (error : JsError) :
  mentions_timeout error <->
  exists a b, message error = Some (a ++ "timed out" ++ b).
Proof.
  unfold mentions_timeout. split.
  - intros [m [Hm H]]. apply includes_iff in H. destruct H as [a [b H]].
    exists a, b. now rewrite Hm, H.
  - intros [a [b H]]. exists (a ++ "timed out" ++ b). split; [exact H |].
    apply includes_iff. now exists a, b.
Qed.

(** C7: an error whose message has "timed out" somewhere in it leaves
    the outer [catch] as the timeout error, with the duration taken
    again from the options (the configured one, or 30000 when that is
    not set, zero or NaN), and nothing is written to the console. Any
    other error is thrown again as it is, after one line is written
    to the console: it gives [error.status] when that is a number
    other than zero and NaN, else [error.statusCode] when that is one,
    else "unknown", and then the message of the error, or "Unknown
    error" when it has none or an empty one. A request that is
    rejected before the timer fires goes through this handler and
    nothing else. *)
Theorem classifier_normalizes_timeouts this error :
  let code (v : option Js.number) (otherwise : string) :=
    match v with
    | Some x => if Js.truthy x then Js.toString x else otherwise
    | None => otherwise
    end in
  let recorded_status := code (status error) (code (statusCode error) "unknown") in
  let recorded_message :=
    match message error with
    | Some (String c m) => String c m
    | _ => "Unknown error"
    end in
  let duration :=
    match requestTimeoutMs (options this) with
    | Some t => if Js.truthy t then t else Js.of_Z 30000
    | None => Js.of_Z 30000
    end in
  ((exists a b, message error = Some (a ++ "timed out" ++ b)) ->
   classify_error this error =
   ([], Throw (new_Error
                 ("Ollama request timed out after " ++
                  Js.toString (Js.div duration (Js.of_Z 1000)) ++ " seconds")))) /\
  ((forall a b, message error <> Some (a ++ "timed out" ++ b)) ->
   classify_error this error =
   ([ConsoleError
       [LogString ("Ollama API error (" ++ recorded_status ++ "): " ++
                   recorded_message)]],
    Throw error)) /\
  (forall net systemPrompt msgs c,
     has_client this c ->
     first_settled net = RequestFirst ->
     chat net c (sent_request this systemPrompt msgs) = Rejected error ->
     run net this systemPrompt msgs = classify_error this error).
Proof.
  intros code recorded_status recorded_message duration.
  split; [| split].
  - intros H. apply mentions_timeout_iff, is_timeout_iff in H.
    unfold classify_error. now rewrite H.
  - intros H. unfold classify_error.
    destruct (is_timeout error) eqn:E.
    + apply is_timeout_iff, mentions_timeout_iff in E.
      destruct E as [a [b E]]. now destruct (H a b).
    + assert (Hs : status_text error = recorded_status).
      { unfold status_text, recorded_status, code.
        destruct (status error) as [x |]; [destruct (Js.truthy x) eqn:Et |];
          simpl; rewrite ?Et; trivial. }
      assert (Hm : or_string (message error) "Unknown error" = recorded_message).
      { unfold or_string, recorded_message.
        now destruct (message error) as [[| ch m] |]. }
      now rewrite Hs, Hm.
  - intros net systemPrompt msgs c Hc Hfirst Hchat.
    rewrite (run_with_client _ _ _ _ c Hc), Hfirst, Hchat.
    unfold Promise_race, try_catch; simpl.
    now destruct (classify_error this error).
Qed.

(** *** The options *)

Lemma or_string_keep (v : option string) (d : string) :
  or_string (if string_truthy v then v else None) d = or_string v d.
Proof. now destruct v as [[| c s] |]. Qed.

Lemma string_truthy_keep (v : option string) :
  string_truthy (if string_truthy v then v else None) = string_truthy v.
Proof. now destruct v as [[| c s] |]. Qed.

Lemma Number_keep (v : option string) :
  number_or (Js.Number (if string_truthy v then v else None)) (Js.of_Z 32768) =
  number_or (Js.Number v) (Js.of_Z 32768).
Proof. now destruct v as [[| c s] |]. Qed.

Lemma clientOptions_drop_falsy (o : OllamaHandlerOptions) :
  clientOptions (drop_falsy o) = clientOptions o.
Proof.
  unfold clientOptions, drop_falsy; simpl.
  rewrite or_string_keep, string_truthy_keep.
  now destruct (string_truthy (ollamaApiKey o)).
Qed.

Lemma timeoutMs_drop_falsy (a b : OllamaHandler) :
  options b = drop_falsy (options a) -> timeoutMs b = timeoutMs a.
Proof.
  intros H. unfold timeoutMs. rewrite H. simpl.
  destruct (requestTimeoutMs (options a)) as [t |]; trivial.
  now destruct (Js.truthy t) eqn:E; simpl; rewrite ?E.
Qed.

Lemma getModel_drop_falsy (a b : OllamaHandler) :
  options b = drop_falsy (options a) -> getModel b = getModel a.
Proof.
  intros H. unfold getModel. rewrite H. simpl.
  now rewrite or_string_keep, string_truthy_keep, Number_keep.
Qed.

Lemma chat_request_drop_falsy (a b : OllamaHandler) (l : list Message) :
  options b = drop_falsy (options a) -> chat_request b l = chat_request a l.
Proof.
  intros H. unfold chat_request. rewrite (getModel_drop_falsy a b H), H. simpl.
  now rewrite Number_keep.
Qed.

Lemma run_drop_falsy net (a b : OllamaHandler) systemPrompt msgs :
  options b = drop_falsy (options a) -> client b = client a ->
  run net b systemPrompt msgs = run net a systemPrompt msgs.
Proof.
  intros Ho Hc. unfold run, createMessage, ensureClient.
  rewrite Hc, Ho, clientOptions_drop_falsy.
  assert (E : forall x y : OllamaHandler, forall k l,
             options y = drop_falsy (options x) ->
             request_and_stream net y k l = request_and_stream net x k l).
  { intros x y k l Hxy. unfold request_and_stream, classify_error.
    now rewrite (timeoutMs_drop_falsy x y Hxy), (chat_request_drop_falsy x y l Hxy). }
  destruct (client a) as [k |]; simpl.
  - now apply E.
  - destruct (new_Ollama (clientOptions (options a))) as [k | e]; simpl; trivial.
    now apply E.
Qed.

(** C10: a falsy value of an option does what the option left out
    does. The client options, the timeout, the model, the request and
    the whole run of a call are those of the options with the falsy
    values taken out. So a timeout of zero is 30000, reported as 30
    seconds, an empty base address gives the local endpoint, an empty
    model id the id [""], and an empty context window override the
    table of defaults. *)
Theorem falsy_option_is_absent (this : OllamaHandler) :
  let absent := {| options := drop_falsy (options this); client := client this |} in
  (clientOptions (options absent) = clientOptions (options this) /\
   timeoutMs absent = timeoutMs this /\
   getModel absent = getModel this /\
   (forall l, chat_request absent l = chat_request this l) /\
   (forall net systemPrompt msgs,
      run net absent systemPrompt msgs = run net this systemPrompt msgs)) /\
  (requestTimeoutMs (options this) = Some (Js.of_Z 0) ->
   timeoutMs this = Js.of_Z 30000 /\
   timeout_message (timeoutMs this) = "Ollama request timed out after 30 seconds") /\
  (ollamaBaseUrl (options this) = Some EmptyString ->
   host (clientOptions (options this)) = "http://localhost:11434") /\
  (ollamaModelId (options this) = Some EmptyString ->
   id (getModel this) = EmptyString) /\
  (ollamaApiOptionsCtxNum (options this) = Some EmptyString ->
   info (getModel this) = openAiModelInfoSaneDefaults).
Proof.
  intros absent. split; [| split; [| split; [| split]]].
  - split; [apply clientOptions_drop_falsy |].
    split; [now apply timeoutMs_drop_falsy |].
    split; [now apply getModel_drop_falsy |].
    split; [intros l; now apply chat_request_drop_falsy |].
    intros net systemPrompt msgs. now apply run_drop_falsy.
  - intros H. unfold timeoutMs. now rewrite H.
  - intros H. unfold clientOptions; simpl. now rewrite H.
  - intros H. unfold getModel; simpl. now rewrite H.
  - intros H. unfold getModel; simpl. now rewrite H.
Qed.

(** C2, as the code has it: with the override ["8192"] the context
    window is 8192; with an override that is not empty and whose
    number is NaN or zero it is 32768; without an override, or with an
    empty one, the model properties are the table of defaults as it
    is, context window included. *)
Theorem contextWindow_of_override (this : OllamaHandler) :
  (ollamaApiOptionsCtxNum (options this) = Some "8192" ->
   contextWindow (info (getModel this)) = Js.of_Z 8192) /\
  (forall s,
     ollamaApiOptionsCtxNum (options this) = Some s ->
     s <> EmptyString ->
     Js.truthy (Js.StringToNumber s) = false ->
     contextWindow (info (getModel this)) = Js.of_Z 32768) /\
  (ollamaApiOptionsCtxNum (options this) = None \/
   ollamaApiOptionsCtxNum (options this) = Some EmptyString ->
   info (getModel this) = openAiModelInfoSaneDefaults).
Proof.
  unfold getModel. split; [| split].
  - intros H. now rewrite H.
  - intros s H Hs Hn. rewrite H. simpl.
    destruct s; [contradiction |]. simpl. unfold number_or. now rewrite Hn.
  - intros [H | H]; now rewrite H.
Qed.

(** C6, as the code has it: the [num_ctx] of the request is the
    number of the override, and 32768 when that number is NaN or zero
    or the override is not set; it is the context window of
    [getModel] when the override is a string that is not empty;
    without an override, or with an empty one, it is 32768 while
    [getModel] gives the table of defaults. *)
Theorem num_ctx_of_override (this : OllamaHandler) (l : list Message) :
  let override := ollamaApiOptionsCtxNum (options this) in
  let sent := num_ctx (chat_options (chat_request this l)) in
  (Js.truthy (Js.Number override) = true -> sent = Js.Number override) /\
  (Js.truthy (Js.Number override) = false -> sent = Js.of_Z 32768) /\
  (string_truthy override = true ->
   sent = contextWindow (info (getModel this))) /\
  (string_truthy override = false ->
   sent = Js.of_Z 32768 /\ info (getModel this) = openAiModelInfoSaneDefaults).
Proof.
  intros override sent. unfold sent, chat_request, getModel; simpl.
  fold override. unfold number_or. split; [| split; [| split]].
  - intros H. now rewrite H.
  - intros H. now rewrite H.
  - intros H. now rewrite H.
  - intros H. rewrite H. split; [| reflexivity].
    now destruct override as [[| ch s] |].
Qed.

(** ** Further properties of the handler *)

(** *** What a run writes to the console *)

Lemma logged_bind {A B} (m : Gen A) (k : A -> Gen B) :
  logged (x <- m ;; k x) =
  (logged m ++ match completion m with
               | Normal a => logged (k a)
               | Throw _ => []
               end)%list.
Proof.
  destruct m as [tr [a | e]]; unfold logged, completion; simpl.
  - destruct (k a) as [tr' c]; simpl. now rewrite flat_map_app.
  - now rewrite app_nil_r.
Qed.

Lemma logged_try_catch {A} (m : Gen A) (h : JsError -> Gen A) :
  logged (try_catch m h) =
  (logged m ++ match completion m with
               | Normal _ => []
               | Throw e => logged (h e)
               end)%list.
Proof.
  destruct m as [tr [a | e]]; unfold logged, completion; simpl.
  - now rewrite app_nil_r.
  - destruct (h e) as [tr' c]; simpl. now rewrite flat_map_app.
Qed.

Lemma translate_chunk_logs_nothing (chunk : ChatResponse) :
  logged (translate_chunk chunk) = [].
Proof.
  unfold translate_chunk, message_content.
  destruct (chunk_message chunk) as [m |]; [| reflexivity].
  destruct (content m);
    destruct (defined (eval_count chunk) || defined (prompt_eval_count chunk));
    reflexivity.
Qed.

Lemma for_await_logs_nothing (s : ChunkStream) :
  logged (for_await s translate_chunk) = [].
Proof.
  induction s as [| e | c rest IH]; simpl; try reflexivity.
  rewrite logged_bind, translate_chunk_logs_nothing, IH.
  now destruct (completion (translate_chunk c)).
Qed.

Lemma process_stream_logged (s : ChunkStream) :
  logged (process_stream s) =
  match completion (for_await s translate_chunk) with
  | Normal _ => []
  | Throw e => [[LogString "Error processing Ollama stream:"; LogError e]]
  end.
Proof.
  unfold process_stream. rewrite logged_try_catch, for_await_logs_nothing.
  now destruct (completion (for_await s translate_chunk)).
Qed.

Lemma classify_error_logged this error :
  logged (classify_error this error) =
  if is_timeout error then []
  else [[LogString ("Ollama API error (" ++ status_text error ++ "): " ++
                    or_string (message error) "Unknown error")]].
Proof. unfold classify_error. now destruct (is_timeout error). Qed.

(** A call has a client, or its run is the error of [ensureClient]
    and nothing else. *)
Lemma run_client_or_not net this systemPrompt msgs :
  (exists c, has_client this c) \/
  (exists this' e, ensureClient this = (this', Throw e) /\
                   run net this systemPrompt msgs = ([], Throw e)).
Proof.
  destruct (ensureClient this) as [this' [c | e]] eqn:E.
  - left. exists c. now exists this'.
  - right. exists this', e. split; trivial.
    unfold run, createMessage. now rewrite E.
Qed.

(** What the race hands to the loop, with a client: a stream, or the
    error of the request or of the timer. *)
Lemma run_with_client_cases net this systemPrompt msgs c :
  has_client this c ->
  (exists s, established net this systemPrompt msgs s) \/
  (exists e, run net this systemPrompt msgs = classify_error this e).
Proof.
  intros Hc. rewrite (run_with_client _ _ _ _ c Hc).
  assert (Ht : forall e (h : JsError -> Gen unit),
             try_catch (s <- await (Rejected e) ;; process_stream s) h = h e).
  { intros e h. unfold try_catch; simpl. now destruct (h e). }
  destruct (first_settled net) eqn:Hfirst; unfold Promise_race.
  - destruct (chat net c (sent_request this systemPrompt msgs)) as [s | e] eqn:Hchat.
    + left. exists s, c. now split.
    + right. exists e. apply Ht.
  - right. exists (TimeoutError this). apply Ht.
Qed.

Lemma consumed_incl (s : ChunkStream) (chunk : ChatResponse) :
  In chunk (consumed s) -> In chunk (chunks s).
Proof.
  induction s as [| e | c rest IH]; simpl; trivial.
  intros [H | H]; [now left | right].
  destruct (completion (translate_chunk c)); [now apply IH | contradiction].
Qed.

(** Every event of a call is an event of a chunk of the stream the
    call got. *)
Lemma yields_run_from_chunk net this systemPrompt msgs ev :
  In ev (yields (run net this systemPrompt msgs)) ->
  exists s chunk,
    established net this systemPrompt msgs s /\
    In chunk (chunks s) /\ In ev (chunk_events chunk).
Proof.
  intros Hin.
  destruct (run_client_or_not net this systemPrompt msgs)
    as [[c Hc] | [this' [e [_ Hrun]]]].
  - destruct (run_with_client_cases net this systemPrompt msgs c Hc)
      as [[s Hs] | [e Hrun]].
    + rewrite (run_established_yields _ _ _ _ _ Hs) in Hin.
      apply in_flat_map in Hin. destruct Hin as [chunk [Hc1 Hc2]].
      exists s, chunk. split; trivial. split; trivial. now apply consumed_incl.
    + rewrite Hrun, classify_error_yields in Hin. contradiction.
  - rewrite Hrun in Hin. contradiction.
Qed.

(** X1: a call that ends normally has written nothing to the console,
    and no call writes more than two lines. *)
Theorem normal_run_logs_nothing net this systemPrompt msgs :
  (completion (run net this systemPrompt msgs) = Normal tt ->
   logged (run net this systemPrompt msgs) = []) /\
  (List.length (logged (run net this systemPrompt msgs)) <= 2)%nat.
Proof.
  destruct (run_client_or_not net this systemPrompt msgs)
    as [[c Hc] | [this' [e [_ Hrun]]]]; [| rewrite Hrun; simpl; auto].
  destruct (run_with_client_cases net this systemPrompt msgs c Hc)
    as [[s Hs] | [e Hrun]].
  - rewrite (run_established _ _ _ _ _ Hs), logged_try_catch, completion_try_catch.
    rewrite process_stream_logged, process_stream_completion.
    destruct (completion (for_await s translate_chunk)) as [[] | e]; simpl.
    + auto.
    + rewrite classify_error_logged, classify_error_completion.
      split; [discriminate |]. destruct (is_timeout _); simpl; auto.
  - rewrite Hrun, classify_error_logged, classify_error_completion.
    split; [discriminate |]. destruct (is_timeout e); simpl; auto.
Qed.

(** X2: when the loop over the stream a call got throws, the error
    it threw is written to the console first, as it is, also when the
    caller gets the timeout error in its place; the line of the outer
    [catch] follows unless the wrapped message contains "timed out". *)
Theorem stream_error_is_logged_first net this systemPrompt msgs s e :
  established net this systemPrompt msgs s ->
  completion (for_await s translate_chunk) = Throw e ->
  logged (run net this systemPrompt msgs) =
  [LogString "Error processing Ollama stream:"; LogError e] ::
  (if is_timeout (StreamProcessingError e) then []
   else [[LogString
            ("Ollama API error (unknown): Ollama stream processing error: " ++
             or_string (message e) "Unknown error")]]).
Proof.
  intros Hs He.
  rewrite (run_established _ _ _ _ _ Hs), logged_try_catch.
  rewrite process_stream_logged, process_stream_completion, He.
  rewrite classify_error_logged. simpl.
  now destruct (is_timeout (StreamProcessingError e)).
Qed.

(** X3: a call yields nothing of its own: every event it yields is an
    event of a chunk of the stream the request was fulfilled with. A
    call without a client, with a rejected request or with a timer
    that fires first yields nothing. *)
Theorem events_come_from_chunks net this systemPrompt msgs :
  (forall ev,
     In ev (yields (run net this systemPrompt msgs)) ->
     exists s chunk,
       established net this systemPrompt msgs s /\
       In chunk (chunks s) /\ In ev (chunk_events chunk)) /\
  ((forall s, ~ established net this systemPrompt msgs s) ->
   yields (run net this systemPrompt msgs) = []).
Proof.
  split; [intros ev; apply yields_run_from_chunk |].
  intros Hno. destruct (yields (run net this systemPrompt msgs)) as [| ev l] eqn:E;
    trivial.
  destruct (yields_run_from_chunk net this systemPrompt msgs ev) as [s [_ [Hs _]]].
  - rewrite E. now left.
  - now destruct (Hno s).
Qed.

(** The token counts of a usage event of a chunk are never NaN and
    never the negative zero. *)
Lemma chunk_usage_counts (chunk : ChatResponse) (i o : Js.number) :
  In (ApiStreamUsageChunk i o) (chunk_events chunk) ->
  (i = Js.of_Z 0 \/ Js.truthy i = true) /\
  (o = Js.of_Z 0 \/ Js.truthy o = true).
Proof.
  unfold chunk_events. rewrite translate_chunk_yields.
  destruct (chunk_message chunk) as [m |]; [| contradiction].
  assert (Hor : forall v, or_number v (Js.of_Z 0) = Js.of_Z 0 \/
                          Js.truthy (or_number v (Js.of_Z 0)) = true).
  { intros [x |]; simpl; [| now left].
    destruct (Js.truthy x) eqn:E; [now right | now left]. }
  intros Hin. apply in_app_or in Hin. destruct Hin as [Hin | Hin].
  - destruct (content m); simpl in Hin; try contradiction.
    destruct Hin as [Hin | []]. discriminate.
  - destruct (defined (eval_count chunk) || defined (prompt_eval_count chunk));
      [| contradiction].
    destruct Hin as [Hin | []]. injection Hin as <- <-. now split.
Qed.

(** X4: the token counts of the usage events of a call are never NaN
    and never the negative zero: a count that is zero or NaN on the
    chunk is given as [+0]. *)
Theorem usage_counts_are_clean net this systemPrompt msgs i o :
  In (ApiStreamUsageChunk i o) (yields (run net this systemPrompt msgs)) ->
  i <> Js.NaN /\ i <> S754_zero true /\ o <> Js.NaN /\ o <> S754_zero true.
Proof.
  intros Hin.
  destruct (yields_run_from_chunk _ _ _ _ _ Hin) as [s [chunk [_ [_ Hev]]]].
  destruct (chunk_usage_counts chunk i o Hev) as [[Hi | Hi] [Ho | Ho]];
    repeat split; intros ->; discriminate.
Qed.

(** X5: the events of the first chunks of a stream do not depend on
    what the stream does after them: the events of the loop over a
    longer stream begin with the events of the loop over the chunks
    alone. *)
Theorem events_of_a_prefix_stay (cs : list ChatResponse) (rest : ChunkStream) :
  exists later,
    yields (process_stream (stream_of cs rest)) =
    (yields (process_stream (stream_of cs StreamEnd)) ++ later)%list.
Proof.
  setoid_rewrite process_stream_yields.
  induction cs as [| c cs [later IH]]; simpl.
  - now exists (flat_map chunk_events (consumed rest)).
  - destruct (completion (translate_chunk c)).
    + exists later. now rewrite IH, app_assoc.
    + exists []. now rewrite !app_nil_r.
Qed.

Lemma consumed_events_bound (s : ChunkStream) :
  (List.length (flat_map chunk_events (consumed s)) <=
   2 * List.length (chunks s))%nat.
Proof.
  assert (Hc : forall c, (List.length (chunk_events c) <= 2)%nat).
  { intros c. unfold chunk_events. rewrite translate_chunk_yields.
    destruct (chunk_message c) as [m |]; simpl; [| auto].
    destruct (content m);
      destruct (defined (eval_count c) || defined (prompt_eval_count c));
      simpl; auto. }
  induction s as [| e | c rest IH]; simpl; auto.
  rewrite length_app. specialize (Hc c).
  destruct (completion (translate_chunk c)); simpl; lia.
Qed.

(** X6: a call yields at most two events for each chunk of the stream
    it got. *)
Theorem at_most_two_events_per_chunk net this systemPrompt msgs s :
  established net this systemPrompt msgs s ->
  (List.length (yields (run net this systemPrompt msgs)) <=
   2 * List.length (chunks s))%nat.
Proof.
  intros Hs. rewrite (run_established_yields _ _ _ _ _ Hs).
  apply consumed_events_bound.
Qed.

(** *** The errors of a call *)

(** X7: the outer [catch] is idempotent: the error it throws, given
    to it again, is thrown again as it is. *)
Theorem classifier_is_idempotent this error error' :
  completion (classify_error this error) = Throw error' ->
  completion (classify_error this error') = Throw error'.
Proof.
  rewrite !classify_error_completion. intros [= <-].
  destruct (is_timeout error) eqn:E.
  - unfold TimeoutError at 1. now rewrite is_timeout_timeout_message.
  - now rewrite E.
Qed.

(** X8: a call that has a client throws no error whose message
    contains "timed out" but the timeout error of its own options. *)
Theorem only_the_timeout_error_mentions_timeout net this systemPrompt msgs c e :
  has_client this c ->
  completion (run net this systemPrompt msgs) = Throw e ->
  mentions_timeout e ->
  e = new_Error (timeout_message (timeoutMs this)).
Proof.
  intros Hc He Hm. apply is_timeout_iff in Hm.
  rewrite (run_with_client _ _ _ _ c Hc), completion_try_catch in He.
  destruct (completion (s <- await _ ;; process_stream s)) as [[] | e0];
    [discriminate |].
  rewrite classify_error_completion in He. injection He as <-.
  destruct (is_timeout e0) eqn:E; [reflexivity | congruence].
Qed.

(** X9: without a client the call yields nothing, writes nothing and
    throws the error of the constructor wrapped as it is, outside the
    outer [catch]: it is not turned into the timeout error and not
    written to the console, and the instance is left without a client,
    so that the next call tries the constructor again. *)
Theorem failed_constructor_ends_call net this systemPrompt msgs e :
  client this = None ->
  new_Ollama (clientOptions (options this)) = Throw e ->
  createMessage net this systemPrompt msgs =
  (this,
   ([], Throw (new_Error ("Error creating Ollama client: " ++
                          match message e with
                          | Some m => m
                          | None => "undefined"
                          end)))).
Proof.
  intros Hc He. unfold createMessage, ensureClient. now rewrite Hc, He.
Qed.

(** *** The instance *)

(** X10: a call never changes the options; an instance that has a
    client is left as it is; and after a call that had a client, the
    instance holds that client. *)
Theorem call_keeps_options_and_client net this systemPrompt msgs :
  let after := fst (createMessage net this systemPrompt msgs) in
  options after = options this /\
  (forall c, client this = Some c -> after = this) /\
  (forall c, has_client this c -> client after = Some c).
Proof.
  unfold has_client, createMessage, ensureClient. simpl.
  destruct (client this) as [c0 |] eqn:Hc.
  - repeat split; trivial. intros c [this' [= _ <-]]. exact Hc.
  - destruct (new_Ollama (clientOptions (options this))) as [c0 | e]; simpl.
    + repeat split; try discriminate. now intros c [this' [= _ <-]].
    + repeat split; try discriminate. intros c [this' H]. discriminate.
Qed.

(** *** The options *)

(** X11: the defaults leave no zero and no NaN: the duration of the
    timer, the [num_ctx] of the request and, with an override, the
    context window of [getModel] are numbers other than zero and
    NaN, whatever the options. *)
Theorem defaults_leave_no_zero (this : OllamaHandler) (l : list Message) :
  Js.truthy (timeoutMs this) = true /\
  Js.truthy (num_ctx (chat_options (chat_request this l))) = true /\
  (string_truthy (ollamaApiOptionsCtxNum (options this)) = true ->
   Js.truthy (contextWindow (info (getModel this))) = true).
Proof.
  assert (Hn : forall x, Js.truthy (number_or x (Js.of_Z 32768)) = true).
  { intros x. unfold number_or. now destruct (Js.truthy x) eqn:E. }
  split; [| split].
  - unfold timeoutMs, or_number.
    destruct (requestTimeoutMs (options this)) as [t |]; trivial.
    now destruct (Js.truthy t) eqn:E.
  - apply Hn.
  - intros H. unfold getModel; simpl. rewrite H. apply Hn.
Qed.

(** X12: the host given to the client is never empty, and an
    Authorization header is given exactly when the key is a string
    that is not empty: it is then "Bearer " followed by the key. *)
Theorem clientOptions_host_and_header (o : OllamaHandlerOptions) :
  Js.nonempty (host (clientOptions o)) = true /\
  (headers (clientOptions o) = None <-> string_truthy (ollamaApiKey o) = false) /\
  (forall h, headers (clientOptions o) = Some h ->
             exists key, ollamaApiKey o = Some key /\
                         Js.nonempty key = true /\
                         h = "Bearer " ++ key).
Proof.
  unfold clientOptions; simpl. split; [| split].
  - now destruct (ollamaBaseUrl o) as [[| ch u] |].
  - destruct (string_truthy (ollamaApiKey o)); split; trivial; discriminate.
  - intros h. destruct (ollamaApiKey o) as [[| ch key] |]; simpl; try discriminate.
    intros [= <-]. now exists (String ch key).
Qed.

(** *** The request *)

(** X13: with a client, a call asks the network one thing: how the
    request it sends settles, and whether it does so before the timer.
    Two networks that agree on that give the same run. The request
    streams, names the model of [getModel], and begins with the system
    prompt as a system message. *)
Theorem run_depends_on_one_request net net' this systemPrompt msgs c :
  has_client this c ->
  first_settled net = first_settled net' ->
  chat net c (sent_request this systemPrompt msgs) =
    chat net' c (sent_request this systemPrompt msgs) ->
  run net this systemPrompt msgs = run net' this systemPrompt msgs /\
  stream (sent_request this systemPrompt msgs) = true /\
  model (sent_request this systemPrompt msgs) = id (getModel this) /\
  messages (sent_request this systemPrompt msgs) =
    {| role := "system"; content := VString systemPrompt |}
      :: convertToOllamaMessages msgs.
Proof.
  intros Hc Hf Hchat.
  rewrite !(run_with_client _ _ _ _ c Hc), Hf, Hchat. now repeat split.
Qed.

End Handler.

(** ** The properties on examples *)

Local Abbreviation sample_run :=
  (run unit sample_new_Ollama unit sample_convert sample_defaults).
Local Abbreviation sample_established :=
  (established unit sample_new_Ollama unit sample_convert sample_defaults).
Local Abbreviation sample_handler := (constructor unit).
Local Abbreviation sample_has_client := (has_client unit sample_new_Ollama).

Lemma sample_client (o : OllamaHandlerOptions) :
  sample_has_client (sample_handler o) tt.
Proof. now exists {| options := o; client := Some tt |}. Qed.

(** A new handler whose request is fulfilled with [s] before the timer
    gets the stream [s]. *)
Lemma sample_stream (o : OllamaHandlerOptions) (s : ChunkStream) :
  sample_established (net_of unit (Fulfilled s) RequestFirst)
                     (sample_handler o) "You are a helpful assistant." [] s.
Proof. exists tt. split; [apply sample_client | now split]. Qed.

(** C1, the claim as it is written fails on a chunk whose content is
    the empty string: the content is not a non-empty string, and a
    text event is yielded for it. *)
Lemma empty_content_yields_text :
  let chunk := chunk_with (VString EmptyString) None None in
  Js.nonempty EmptyString = false /\
  chunk_content chunk = Some (VString EmptyString) /\
  yields (translate_chunk chunk) = [ApiStreamTextChunk EmptyString] /\
  sample_run (net_of unit (Fulfilled (stream_of [chunk] StreamEnd)) RequestFirst)
             (sample_handler no_options) "You are a helpful assistant." [] =
  ([Yield (ApiStreamTextChunk EmptyString)], Normal tt).
Proof. repeat split. Qed.

(** C3, the claim as it is written fails on a chunk without a message
    whose output token count is defined: the field access throws
    before the counts are looked at, and no usage event is yielded. *)
Lemma count_without_message_yields_no_usage :
  let chunk := chunk_without_message (Some (Js.of_Z 5)) None in
  defined (eval_count chunk) = true /\
  translate_chunk chunk = ([], Throw (TypeError_reading "content")) /\
  usage_events
    (sample_run (net_of unit (Fulfilled (stream_of [chunk] StreamEnd)) RequestFirst)
                (sample_handler no_options) "You are a helpful assistant." []) = [].
Proof. repeat split. Qed.

(** Witness of C8: scenario A on a new handler without options. *)
Lemma events_follow_chunk_order_witness :
  sample_established (net_of unit (Fulfilled scenario_A) RequestFirst)
                     (sample_handler no_options)
                     "You are a helpful assistant." [] scenario_A /\
  sample_run (net_of unit (Fulfilled scenario_A) RequestFirst)
             (sample_handler no_options) "You are a helpful assistant." [] =
  ([Yield (ApiStreamTextChunk "Hello");
    Yield (ApiStreamTextChunk " world");
    Yield (ApiStreamUsageChunk (Js.of_Z 12) (Js.of_Z 5))],
   Normal tt).
Proof.
  split; [apply sample_stream |].
  apply (events_follow_chunk_order unit sample_new_Ollama unit sample_convert
           sample_defaults _ _ _ _ scenario_A (sample_stream no_options scenario_A)).
  reflexivity.
Defined.

(** C4, the claim as it is written fails when the error raised by the
    iterator has a message with "timed out" in it: the call ends with
    the timeout error, which does not carry that message. *)
Lemma stream_timeout_is_not_wrapped :
  let s := stream_of [chunk_with (VString "Hello") None None]
                     (StreamThrow (new_Error "read timed out")) in
  let g := sample_run (net_of unit (Fulfilled s) RequestFirst)
                      (sample_handler no_options)
                      "You are a helpful assistant." [] in
  yields g = [ApiStreamTextChunk "Hello"] /\
  completion g = Throw (new_Error "Ollama request timed out after 30 seconds") /\
  completion g <>
    Throw (new_Error "Ollama stream processing error: read timed out").
Proof. repeat split. discriminate. Qed.

(** Witness of C4: one chunk, then the iterator raises an error whose
    message has no "timed out" in it. *)
Lemma stream_error_is_wrapped_witness :
  let prefix := [chunk_with (VString "Hello") None None] in
  let e := new_Error "connection reset" in
  let net := net_of unit (Fulfilled (stream_of prefix (StreamThrow e))) RequestFirst in
  Forall has_message prefix /\
  sample_established net (sample_handler no_options)
                     "You are a helpful assistant." []
                     (stream_of prefix (StreamThrow e)) /\
  yields (sample_run net (sample_handler no_options)
                     "You are a helpful assistant." []) =
    [ApiStreamTextChunk "Hello"] /\
  completion (sample_run net (sample_handler no_options)
                         "You are a helpful assistant." []) =
    Throw (new_Error "Ollama stream processing error: connection reset").
Proof.
  intros prefix e net.
  assert (Hp : Forall has_message prefix)
    by (repeat constructor; discriminate).
  split; [exact Hp |]. split; [apply sample_stream |].
  exact (proj2 (stream_error_is_wrapped unit sample_new_Ollama unit
                  sample_convert sample_defaults net _ _ _ prefix e Hp
                  (sample_stream no_options _))).
Defined.

(** Witness of C9: a chunk without a message between two chunks with
    one, and scenario A for the streams whose chunks all carry a
    message. *)
Lemma chunk_without_message_ends_stream_witness :
  let prefix := [chunk_with (VString "Hello") None None] in
  let rest := StreamChunk (chunk_with (VString " world") None None) StreamEnd in
  let s := stream_of prefix
             (StreamChunk (chunk_without_message (Some (Js.of_Z 5)) None) rest) in
  let g := sample_run (net_of unit (Fulfilled s) RequestFirst)
                      (sample_handler no_options)
                      "You are a helpful assistant." [] in
  (yields g = [ApiStreamTextChunk "Hello"] /\
   completion g =
     Throw (new_Error
              "Ollama stream processing error: Cannot read properties of undefined (reading 'content')")) /\
  Forall has_message (chunks scenario_A) /\
  completion (for_await scenario_A translate_chunk) = Normal tt.
Proof.
  intros prefix rest s g.
  assert (Hp : Forall has_message prefix)
    by (repeat constructor; discriminate).
  assert (Ha : Forall has_message (chunks scenario_A))
    by (repeat constructor; discriminate).
  split; [| split; [exact Ha |]].
  - exact (proj1 (chunk_without_message_ends_stream unit sample_new_Ollama unit
                    sample_convert sample_defaults)
                 _ _ _ _ prefix
                 (chunk_without_message (Some (Js.of_Z 5)) None) rest
                 Hp eq_refl (sample_stream no_options s)).
  - exact (proj2 (proj2 (proj2 (chunk_without_message_ends_stream unit
                                  sample_new_Ollama unit sample_convert
                                  sample_defaults)
                               scenario_A Ha))).
Defined.

(** C5, the claim as it is written fails for a configured timeout of
    zero: the duration is 30000, not the configured value, and the
    message says 30 seconds, not 0. *)
Lemma zero_timeout_is_not_used :
  let this := sample_handler (with_timeout (Js.of_Z 0)) in
  requestTimeoutMs (options unit this) = Some (Js.of_Z 0) /\
  timeoutMs unit this = Js.of_Z 30000 /\
  timeoutMs unit this <> Js.of_Z 0 /\
  timeout_message (Js.of_Z 0) = "Ollama request timed out after 0 seconds" /\
  sample_run (net_of unit (Fulfilled StreamEnd) TimerFirst) this
             "You are a helpful assistant." [] =
  ([], Throw (new_Error "Ollama request timed out after 30 seconds")).
Proof. repeat split. discriminate. Qed.

(** Witness of C5: a timeout of 100 ms and a timer that fires first. *)
Lemma timer_or_request_decides_witness :
  let this := sample_handler (with_timeout (Js.of_Z 100)) in
  sample_has_client this tt /\
  sample_run (net_of unit (Fulfilled StreamEnd) TimerFirst) this
             "You are a helpful assistant." [] =
  ([], Throw (new_Error "Ollama request timed out after 0.1 seconds")).
Proof.
  intros this. split; [apply sample_client |].
  exact (proj1 (proj2 (timer_or_request_decides unit sample_new_Ollama unit
                         sample_convert sample_defaults
                         (net_of unit (Fulfilled StreamEnd) TimerFirst) this
                         "You are a helpful assistant." [] tt
                         (sample_client _)))
               eq_refl).
Defined.

(** Witness of C7: with a timeout of 1500 ms configured, an upstream
    error that mentions a timeout, and one that does not and has a
    status code. *)
Lemma classifier_normalizes_timeouts_witness :
  let this := sample_handler (with_timeout (Js.of_Z 1500)) in
  let timeout := {| name := "ResponseError";
                    message := Some "upstream request timed out";
                    status := Some (Js.of_Z 504);
                    statusCode := None |} in
  let missing := {| name := "ResponseError";
                    message := Some "model not found";
                    status := None;
                    statusCode := Some (Js.of_Z 404) |} in
  (message timeout = Some ("upstream request " ++ "timed out" ++ EmptyString) /\
   classify_error unit this timeout =
   ([], Throw (new_Error "Ollama request timed out after 1.5 seconds"))) /\
  ((forall a b, message missing <> Some (a ++ "timed out" ++ b)) /\
   classify_error unit this missing =
   ([ConsoleError [LogString "Ollama API error (404): model not found"]],
    Throw missing)).
Proof.
  intros this timeout missing.
  assert (Hn : forall a b, message missing <> Some (a ++ "timed out" ++ b)).
  { intros a b H.
    assert (Hm : mentions_timeout missing)
      by (apply mentions_timeout_iff; now exists a, b).
    apply is_timeout_iff in Hm. discriminate Hm. }
  split; (split; [first [reflexivity | exact Hn] |]).
  - exact (proj1 (classifier_normalizes_timeouts unit sample_new_Ollama unit
                    sample_convert sample_defaults this timeout)
                 (ex_intro _ "upstream request "
                    (ex_intro _ EmptyString eq_refl))).
  - exact (proj1 (proj2 (classifier_normalizes_timeouts unit sample_new_Ollama
                           unit sample_convert sample_defaults this missing))
                 Hn).
Defined.

(** Witness of C10: a timeout of zero. *)
Lemma falsy_option_is_absent_witness :
  let this := sample_handler (with_timeout (Js.of_Z 0)) in
  requestTimeoutMs (options unit this) = Some (Js.of_Z 0) /\
  timeoutMs unit this = Js.of_Z 30000 /\
  timeout_message (timeoutMs unit this) =
    "Ollama request timed out after 30 seconds".
Proof.
  intros this. split; [reflexivity |].
  exact (proj1 (proj2 (falsy_option_is_absent unit sample_new_Ollama unit
                         sample_convert sample_defaults this))
               eq_refl).
Defined.

(** C2, the claim as it is written fails without an override when the
    context window of the table of defaults is not 32768: [getModel]
    gives the table as it is. *)
Lemma absent_override_gives_table :
  let this := sample_handler no_options in
  ollamaApiOptionsCtxNum (options unit this) = None /\
  contextWindow (info (getModel unit sample_defaults this)) = Js.of_Z 128000 /\
  contextWindow (info (getModel unit sample_defaults this)) <> Js.of_Z 32768.
Proof. repeat split. discriminate. Qed.

(** Witness of C2: the override ["8192"]. *)
Lemma contextWindow_of_override_witness :
  let this := sample_handler (with_ctx "8192") in
  let that := sample_handler (with_ctx "eight thousand") in
  ollamaApiOptionsCtxNum (options unit this) = Some "8192" /\
  contextWindow (info (getModel unit sample_defaults this)) = Js.of_Z 8192 /\
  Js.StringToNumber "eight thousand" = Js.NaN /\
  contextWindow (info (getModel unit sample_defaults that)) = Js.of_Z 32768.
Proof.
  intros this that. split; [reflexivity |]. split; [| split; [reflexivity |]].
  - exact (proj1 (contextWindow_of_override unit sample_defaults this) eq_refl).
  - apply (proj1 (proj2 (contextWindow_of_override unit sample_defaults that))
                 "eight thousand"); [reflexivity | discriminate | reflexivity].
Defined.

(** C6, the claim as it is written fails without an override when the
    context window of the table of defaults is not 32768: the request
    carries 32768 and [getModel] the context window of the table. *)
Lemma num_ctx_differs_from_table :
  let this := sample_handler no_options in
  num_ctx (chat_options (chat_request unit sample_defaults this [])) =
    Js.of_Z 32768 /\
  contextWindow (info (getModel unit sample_defaults this)) = Js.of_Z 128000 /\
  num_ctx (chat_options (chat_request unit sample_defaults this [])) <>
    contextWindow (info (getModel unit sample_defaults this)).
Proof. repeat split. discriminate. Qed.

(** Witness of C6: the override ["8192"]. *)
Lemma num_ctx_of_override_witness :
  let this := sample_handler (with_ctx "8192") in
  string_truthy (ollamaApiOptionsCtxNum (options unit this)) = true /\
  num_ctx (chat_options (chat_request unit sample_defaults this [])) =
    contextWindow (info (getModel unit sample_defaults this)) /\
  num_ctx (chat_options (chat_request unit sample_defaults this [])) =
    Js.of_Z 8192.
Proof.
  intros this. split; [reflexivity |]. split; [| reflexivity].
  exact (proj1 (proj2 (proj2 (num_ctx_of_override unit sample_defaults this [])))
               eq_refl).
Defined.

(** ** Further properties, on the client and on examples *)

(** X14: the client is made once: after a call of [ensureClient] that
    gave a client, every later call gives the same client and leaves
    the instance as it is, whatever the constructor would do then. *)
Theorem client_is_made_once (Ollama : Type)
    (new_Ollama new_Ollama' : ClientOptions -> Completion Ollama)
    (this this' : OllamaHandler Ollama) (c : Ollama) :
  ensureClient Ollama new_Ollama this = (this', Normal c) ->
  ensureClient Ollama new_Ollama' this' = (this', Normal c).
Proof.
  unfold ensureClient. destruct (client Ollama this) as [c0 |] eqn:Hc.
  - intros [= <- <-]. now rewrite Hc.
  - destruct (new_Ollama _) as [c0 | e]; [| discriminate].
    now intros [= <- <-].
Qed.

(** X15: a second call on the instance a call with a client left
    uses that client, whatever the constructor would do then: on the
    same network and with the same arguments it gives the same run
    and leaves the instance as it is. *)
Theorem second_call_reuses_client (Ollama : Type)
    (new_Ollama new_Ollama' : ClientOptions -> Completion Ollama)
    (MessageParam : Type)
    (convertToOllamaMessages : list MessageParam -> list Message)
    (openAiModelInfoSaneDefaults : ModelInfo)
    (net : Network Ollama) (this : OllamaHandler Ollama)
    (systemPrompt : string) (msgs : list MessageParam) (c : Ollama) :
  has_client Ollama new_Ollama this c ->
  let first := createMessage Ollama new_Ollama MessageParam
                 convertToOllamaMessages openAiModelInfoSaneDefaults
                 net this systemPrompt msgs in
  createMessage Ollama new_Ollama' MessageParam convertToOllamaMessages
    openAiModelInfoSaneDefaults net (fst first) systemPrompt msgs = first.
Proof.
  intros [this' H]. unfold createMessage. rewrite H. simpl.
  now rewrite (client_is_made_once _ _ new_Ollama' _ _ _ H).
Qed.

(** On scenario A nothing is written to the console. *)
Lemma normal_run_logs_nothing_witness :
  let g := sample_run (net_of unit (Fulfilled scenario_A) RequestFirst)
                      (sample_handler no_options)
                      "You are a helpful assistant." [] in
  completion g = Normal tt /\ logged g = [].
Proof.
  intros g. split; [reflexivity |].
  exact (proj1 (normal_run_logs_nothing unit sample_new_Ollama unit
                  sample_convert sample_defaults
                  (net_of unit (Fulfilled scenario_A) RequestFirst)
                  (sample_handler no_options)
                  "You are a helpful assistant." [])
               eq_refl).
Defined.

(** An iterator that raises an error with "timed out" in its message:
    the caller gets the timeout error, the console the error of the
    iterator. *)
Lemma stream_error_is_logged_first_witness :
  let e := new_Error "read timed out" in
  let s := stream_of [chunk_with (VString "Hello") None None] (StreamThrow e) in
  let net := net_of unit (Fulfilled s) RequestFirst in
  sample_established net (sample_handler no_options)
                     "You are a helpful assistant." [] s /\
  completion (for_await s translate_chunk) = Throw e /\
  logged (sample_run net (sample_handler no_options)
                     "You are a helpful assistant." []) =
  [[LogString "Error processing Ollama stream:"; LogError e]].
Proof.
  intros e s net. split; [apply sample_stream |]. split; [reflexivity |].
  exact (stream_error_is_logged_first unit sample_new_Ollama unit
           sample_convert sample_defaults net (sample_handler no_options)
           "You are a helpful assistant." [] s e
           (sample_stream no_options s) eq_refl).
Defined.

(** The usage event of scenario A comes from its third chunk. *)
Lemma events_come_from_chunks_witness :
  let net := net_of unit (Fulfilled scenario_A) RequestFirst in
  let ev := ApiStreamUsageChunk (Js.of_Z 12) (Js.of_Z 5) in
  In ev (yields (sample_run net (sample_handler no_options)
                            "You are a helpful assistant." [])) /\
  exists s chunk,
    sample_established net (sample_handler no_options)
                       "You are a helpful assistant." [] s /\
    In chunk (chunks s) /\ In ev (chunk_events chunk).
Proof.
  intros net ev.
  assert (Hin : In ev (yields (sample_run net (sample_handler no_options)
                                          "You are a helpful assistant." [])))
    by (right; right; now left).
  split; [exact Hin |].
  exact (proj1 (events_come_from_chunks unit sample_new_Ollama unit
                  sample_convert sample_defaults net
                  (sample_handler no_options)
                  "You are a helpful assistant." [])
               ev Hin).
Defined.

(** A chunk whose counts are NaN and the negative zero gives a usage
    event with two zeros. *)
Lemma usage_counts_are_clean_witness :
  let chunk := chunk_with VUndefined (Some Js.NaN) (Some (S754_zero true)) in
  let net := net_of unit (Fulfilled (stream_of [chunk] StreamEnd)) RequestFirst in
  In (ApiStreamUsageChunk (Js.of_Z 0) (Js.of_Z 0))
     (yields (sample_run net (sample_handler no_options)
                         "You are a helpful assistant." [])) /\
  Js.of_Z 0 <> Js.NaN /\ Js.of_Z 0 <> S754_zero true.
Proof.
  intros chunk net.
  assert (Hin : In (ApiStreamUsageChunk (Js.of_Z 0) (Js.of_Z 0))
                   (yields (sample_run net (sample_handler no_options)
                                       "You are a helpful assistant." [])))
    by now left.
  split; [exact Hin |].
  destruct (usage_counts_are_clean unit sample_new_Ollama unit sample_convert
              sample_defaults net _ _ _ _ _ Hin) as [H1 [H2 _]].
  now split.
Defined.

(** Scenario A: three events for three chunks. *)
Lemma at_most_two_events_per_chunk_witness :
  let net := net_of unit (Fulfilled scenario_A) RequestFirst in
  sample_established net (sample_handler no_options)
                     "You are a helpful assistant." [] scenario_A /\
  (List.length (yields (sample_run net (sample_handler no_options)
                                   "You are a helpful assistant." [])) <=
   2 * List.length (chunks scenario_A))%nat.
Proof.
  intros net. split; [apply sample_stream |].
  exact (at_most_two_events_per_chunk unit sample_new_Ollama unit sample_convert
           sample_defaults net (sample_handler no_options)
           "You are a helpful assistant." [] scenario_A
           (sample_stream no_options scenario_A)).
Defined.

(** An upstream timeout, classified twice. *)
Lemma classifier_is_idempotent_witness :
  let this := sample_handler no_options in
  let error := new_Error "upstream request timed out" in
  let error' := new_Error "Ollama request timed out after 30 seconds" in
  completion (classify_error unit this error) = Throw error' /\
  completion (classify_error unit this error') = Throw error'.
Proof.
  intros this error error'. split; [reflexivity |].
  exact (classifier_is_idempotent unit this error error' eq_refl).
Defined.

(** A rejected request whose message has "timed out" in it. *)
Lemma only_the_timeout_error_mentions_timeout_witness :
  let this := sample_handler (with_timeout (Js.of_Z 1500)) in
  let rejected := {| name := "ResponseError";
                     message := Some "upstream request timed out";
                     status := Some (Js.of_Z 504);
                     statusCode := None |} in
  let net := net_of unit (Rejected rejected) RequestFirst in
  let e := new_Error "Ollama request timed out after 1.5 seconds" in
  sample_has_client this tt /\
  completion (sample_run net this "You are a helpful assistant." []) = Throw e /\
  mentions_timeout e /\
  e = new_Error (timeout_message (timeoutMs unit this)).
Proof.
  intros this rejected net e.
  assert (Hm : mentions_timeout e)
    by (exists "Ollama request timed out after 1.5 seconds"; now split).
  split; [apply sample_client |]. split; [reflexivity |]. split; [exact Hm |].
  exact (only_the_timeout_error_mentions_timeout unit sample_new_Ollama unit
           sample_convert sample_defaults net this
           "You are a helpful assistant." [] tt e
           (sample_client _) eq_refl Hm).
Defined.

(** A constructor that throws an error with "timed out" in its
    message: the call throws it wrapped, not the timeout error. *)
Lemma failed_constructor_ends_call_witness :
  let failing := fun _ : ClientOptions =>
                   @Throw unit (new_Error "connect timed out") in
  let this := sample_handler no_options in
  client unit this = None /\
  createMessage unit failing unit sample_convert sample_defaults
                (net_of unit (Fulfilled scenario_A) RequestFirst) this
                "You are a helpful assistant." [] =
  (this,
   ([], Throw (new_Error "Error creating Ollama client: connect timed out"))).
Proof.
  intros failing this. split; [reflexivity |].
  exact (failed_constructor_ends_call unit failing unit sample_convert
           sample_defaults
           (net_of unit (Fulfilled scenario_A) RequestFirst) this
           "You are a helpful assistant." [] (new_Error "connect timed out")
           eq_refl eq_refl).
Defined.

(** A new instance after its first call. *)
Lemma call_keeps_options_and_client_witness :
  let this := sample_handler (with_ctx "8192") in
  let after := fst (createMessage unit sample_new_Ollama unit sample_convert
                      sample_defaults
                      (net_of unit (Fulfilled scenario_A) RequestFirst) this
                      "You are a helpful assistant." []) in
  sample_has_client this tt /\
  options unit after = with_ctx "8192" /\
  client unit after = Some tt.
Proof.
  intros this after.
  pose proof (call_keeps_options_and_client unit sample_new_Ollama unit
                sample_convert sample_defaults
                (net_of unit (Fulfilled scenario_A) RequestFirst) this
                "You are a helpful assistant." []) as [Ho [_ Hc]].
  split; [apply sample_client |]. split; [exact Ho |].
  exact (Hc tt (sample_client _)).
Defined.

(** The override ["0"]: the context window is 32768, not zero. *)
Lemma defaults_leave_no_zero_witness :
  let this := sample_handler (with_ctx "0") in
  string_truthy (ollamaApiOptionsCtxNum (options unit this)) = true /\
  Js.truthy (contextWindow (info (getModel unit sample_defaults this))) = true.
Proof.
  intros this. split; [reflexivity |].
  exact (proj2 (proj2 (defaults_leave_no_zero unit sample_defaults this []))
               eq_refl).
Defined.

(** Options with a key and no base address. *)
Lemma clientOptions_host_and_header_witness :
  let o := {| ollamaBaseUrl := None; ollamaApiKey := Some "secret";
              ollamaModelId := None; ollamaApiOptionsCtxNum := None;
              requestTimeoutMs := None |} in
  headers (clientOptions o) = Some "Bearer secret" /\
  exists key, ollamaApiKey o = Some key /\
              Js.nonempty key = true /\
              "Bearer secret" = "Bearer " ++ key.
Proof.
  intros o. split; [reflexivity |].
  exact (proj2 (proj2 (clientOptions_host_and_header o)) "Bearer secret" eq_refl).
Defined.

(** Two networks that differ only in what they answer to other
    requests. *)
Lemma run_depends_on_one_request_witness :
  let this := sample_handler no_options in
  let net := net_of unit (Fulfilled scenario_A) RequestFirst in
  let net' :=
    {| chat := fun (_ : unit) (r : ChatRequest) =>
                 if stream r then Fulfilled scenario_A
                 else Rejected (new_Error "not streaming");
       first_settled := RequestFirst |} in
  sample_has_client this tt /\
  sample_run net this "You are a helpful assistant." [] =
  sample_run net' this "You are a helpful assistant." [].
Proof.
  intros this net net'. split; [apply sample_client |].
  exact (proj1 (run_depends_on_one_request unit sample_new_Ollama unit
                  sample_convert sample_defaults net net' this
                  "You are a helpful assistant." [] tt
                  (sample_client _) eq_refl eq_refl)).
Defined.

(** A client made by a constructor that throws from then on. *)
Lemma client_is_made_once_witness :
  let failing := fun _ : ClientOptions =>
                   @Throw unit (new_Error "connect timed out") in
  let this := sample_handler no_options in
  let this' := {| options := no_options; client := Some tt |} in
  ensureClient unit sample_new_Ollama this = (this', Normal tt) /\
  ensureClient unit failing this' = (this', Normal tt).
Proof.
  intros failing this this'. split; [reflexivity |].
  exact (client_is_made_once unit sample_new_Ollama failing this this' tt eq_refl).
Defined.

(** A second call with a constructor that throws from then on. *)
Lemma second_call_reuses_client_witness :
  let failing := fun _ : ClientOptions =>
                   @Throw unit (new_Error "connect timed out") in
  let this := sample_handler no_options in
  let net := net_of unit (Fulfilled scenario_A) RequestFirst in
  let first := createMessage unit sample_new_Ollama unit sample_convert
                 sample_defaults net this "You are a helpful assistant." [] in
  sample_has_client this tt /\
  createMessage unit failing unit sample_convert sample_defaults net
                (fst first) "You are a helpful assistant." [] = first.
Proof.
  intros failing this net first. split; [apply sample_client |].
  exact (second_call_reuses_client unit sample_new_Ollama failing unit
           sample_convert sample_defaults net this
           "You are a helpful assistant." [] tt (sample_client _)).
Defined.

End Ollama.
